(** * Telemetry core of the intrusion-detection dashboard ([frontend/src/App.js])

    A shallow embedding of the React component [App]: the sample generator
    ([generateRandomValue], [generateRandomData]), the explanation rewriting
    done after every classification, the bounded history kept by
    [makeContinuousPrediction], the start/stop button
    ([toggleContinuousPrediction]), the manual submission ([handleSubmit]) and
    the batch run ([generateMultipleRandomPredictions]).

    Conventions of the embedding.
    - A state setter ([setPrediction], ...) writes the component state at once;
      a state variable READ inside a handler is the value of the render that
      created the handler, so handlers take those captured values as
      explicit arguments (suffix [_r]).
    - An [async] handler is split at its [await]: the part run at the call
      and the part run when the request settles.
    - What the environment decides (the draws of [Math.random], the answer of
      the classifier, the clock) is carried by the event that triggers the
      handler.
    - Purely presentational state ([activeTab], [showTips], [selectedResult])
      is left out: no handler modelled here reads or writes it. *)

From Stdlib Require Import ZArith QArith List String Ascii Bool Arith Lia.
Import ListNotations.

(* ------------------------------------------------------------------ *)
(** ** JavaScript values and built-ins used by the component *)

Module JS.

(** The values a JSON response field can hold. [VObject] stands for any
    object or array: the component only ever tests such a value for
    truthiness or calls a string method on it. *)
Inductive value : Type :=
| VUndefined
| VNull
| VBool (b : bool)
| VNum (q : Q)
| VStr (s : string)
| VObject.

(** ToBoolean. *)
Definition truthy (v : value) : bool :=
  match v with
  | VUndefined | VNull => false
  | VBool b => b
  | VNum q => negb (Qeq_bool q 0)
  | VStr s => negb (String.eqb s "")
  | VObject => true
  end.

(** [v || d]. *)
Definition orElse (v d : value) : value := if truthy v then v else d.

(** [v === s] for a string literal [s]. *)
Definition strictEq (v : value) (s : string) : bool :=
  match v with
  | VStr t => String.eqb t s
  | _ => false
  end.

(** *** Strings

    A string is read as its sequence of 8-bit characters; the keys and
    labels of the component are ASCII, so a key matches at the same places
    as in the UTF-16 reading. *)

(** StringIndexOf(s, key, 0): the least index at which [key] starts. *)
Fixpoint indexOf (key s : string) : option nat :=
  if prefix key s then Some 0%nat
  else match s with
       | EmptyString => None
       | String _ s' => option_map S (indexOf key s')
       end.

Definition includes (s key : string) : bool :=
  match indexOf key s with Some _ => true | None => false end.

(** [s.replace(key, label)] with a string pattern: only the first match is
    rewritten. The replacement is taken literally, which is what
    GetSubstitution does for a replacement without [$] (see
    [labels_have_no_dollar] below). *)
Definition replace (s key label : string) : string :=
  match indexOf key s with
  | None => s
  | Some pos =>
      let preceding := substring 0 pos s in
      let following :=
        substring (pos + String.length key)
                  (String.length s - (pos + String.length key)) s in
      (preceding ++ label ++ following)%string
  end.

(** *** Numbers

    A finite binary64 number is [mant * 2 ^ expo] with [|mant| < 2 ^ 53] and
    [-1074 <= expo <= 971]. *)
Record double : Type := { mant : Z; expo : Z }.

Definition binary64 (x : double) : Prop :=
  (Z.abs (mant x) < 2 ^ 53 /\ -1074 <= expo x <= 971)%Z.

(** The number lies in the half-open interval from 0 to 1, as every result
    of [Math.random()] does. *)
Definition unitInterval (x : double) : Prop :=
  (mant x = 0 \/ (0 < mant x /\ expo x < 0 /\ mant x < 2 ^ (- expo x)))%Z.

Definition bits (p : Z) : Z := (Z.log2 p + 1)%Z.

(** Rounding of the exact value [p * 2 ^ e], [0 <= p], to 53 significant
    bits, ties to even. *)
Definition roundMagnitude (p e : Z) : double :=
  let s := (bits p - 53)%Z in
  if (s <=? 0)%Z then {| mant := p; expo := e |}
  else
    let q := (p / 2 ^ s)%Z in
    let r := (p mod 2 ^ s)%Z in
    let half := (2 ^ (s - 1))%Z in
    let q' :=
      if (r <? half)%Z then q
      else if (half <? r)%Z then (q + 1)%Z
      else if Z.even q then q else (q + 1)%Z in
    {| mant := q'; expo := (e + s)%Z |}.

Definition roundNearestEven (p e : Z) : double :=
  if (p <? 0)%Z
  then let m := roundMagnitude (- p) e in {| mant := (- mant m)%Z; expo := expo m |}
  else roundMagnitude p e.

(** [x * n] for an integer [n] that a double holds exactly: the exact
    product [mant x * n * 2 ^ expo x] rounded once. The exponent of the
    product is that of [x], so no result is subnormal unless [x] is, and
    the products formed by the component stay far below the overflow
    threshold. *)
Definition mulInt (x : double) (n : Z) : double :=
  roundNearestEven (mant x * n) (expo x).

(** [Math.floor], read as the integer it denotes. *)
Definition floor (x : double) : Z :=
  if (0 <=? expo x)%Z then (mant x * 2 ^ expo x)%Z
  else (mant x / 2 ^ (- expo x))%Z.

End JS.

(* ------------------------------------------------------------------ *)
(** ** Configuration tables *)

Local Open Scope string_scope.
Local Open Scope nat_scope.

(** [featureLabels], in the order [Object.keys] enumerates it. *)
Definition featureLabels : list (string * string) :=
  [ ("Dst Port", "Destination Port");
    ("Flow Duration", "Flow Duration (ms)");
    ("Tot Fwd Pkts", "Total Forward Packets");
    ("Tot Bwd Pkts", "Total Backward Packets");
    ("Flow Byts/s", "Flow Bytes per Second");
    ("Flow Pkts/s", "Flow Packets per Second");
    ("Pkt Len Max", "Packet Length Maximum");
    ("Pkt Len Mean", "Packet Length Mean");
    ("Pkt Len Std", "Packet Length Standard Deviation");
    ("SYN Flag Cnt", "SYN Flag Count");
    ("ACK Flag Cnt", "ACK Flag Count");
    ("FIN Flag Cnt", "FIN Flag Count") ].

Module Range.
Record t : Type := { min : Z; max : Z }.
End Range.

(** [randomRanges], in the order [Object.keys] enumerates it. *)
Definition randomRanges : list (string * Range.t) :=
  [ ("Dst Port",      {| Range.min := 1;   Range.max := 65535 |});
    ("Flow Duration", {| Range.min := 10;  Range.max := 10000 |});
    ("Tot Fwd Pkts",  {| Range.min := 1;   Range.max := 100 |});
    ("Tot Bwd Pkts",  {| Range.min := 1;   Range.max := 100 |});
    ("Flow Byts/s",   {| Range.min := 100; Range.max := 100000 |});
    ("Flow Pkts/s",   {| Range.min := 1;   Range.max := 1000 |});
    ("Pkt Len Max",   {| Range.min := 40;  Range.max := 1500 |});
    ("Pkt Len Mean",  {| Range.min := 40;  Range.max := 800 |});
    ("Pkt Len Std",   {| Range.min := 0;   Range.max := 400 |});
    ("SYN Flag Cnt",  {| Range.min := 0;   Range.max := 10 |});
    ("ACK Flag Cnt",  {| Range.min := 0;   Range.max := 20 |});
    ("FIN Flag Cnt",  {| Range.min := 0;   Range.max := 10 |}) ]%Z.

(* ------------------------------------------------------------------ *)
(** ** Sample generator *)

(** [Math.floor(Math.random() * (max - min + 1)) + min], with [r] the draw
    of [Math.random()]. The subtraction and both additions are between
    integers far below [2 ^ 53] and are exact in binary64, so they are
    written in [Z]. *)
Definition generateRandomValue (r : JS.double) (min max : Z) : Z :=
  (JS.floor (JS.mulInt r (max - min + 1)) + min)%Z.

(** [generateRandomData]: one draw per key of [randomRanges], in order;
    [rand i] is the [i]-th draw of the call. *)
Definition generateRandomData (rand : nat -> JS.double) : list (string * Z) :=
  map (fun ir : nat * (string * Range.t) =>
         let (i, fr) := ir in
         let (feature, range) := fr in
         (feature, generateRandomValue (rand i) (Range.min range) (Range.max range)))
      (combine (seq 0 (List.length randomRanges)) randomRanges).

(* ------------------------------------------------------------------ *)
(** ** Classifier answers and the explanation rewriting *)

Module Response.
(** [response.data] when it is an object; a missing field is [VUndefined]. *)
Record t : Type :=
  { prediction : JS.value; confidence : JS.value; reason : JS.value }.
End Response.

(** How [await axios.post(...)] settles: the promise rejects, or it
    resolves with a response whose [data] is an object ([Some]) or anything
    else, on which [response.data && response.data.prediction] is falsy
    ([None]). *)
Inductive outcome : Type :=
| Rejected
| Resolved (data : option Response.t).

(** The [forEach] over [Object.keys(featureLabels)] that rewrites
    [reasonText] key by key. *)
Definition annotate (reasonText : string) : string :=
  fold_left (fun text kl => JS.replace text (fst kl) (snd kl)) featureLabels reasonText.

(** [let reasonText = response.data.reason || "No explanation provided."]
    followed by the rewriting. A truthy [reason] that is not a string has
    no [replace] method: the first call throws a TypeError ([None]). *)
Definition reasonTextOf (d : Response.t) : option string :=
  match JS.orElse (Response.reason d) (JS.VStr "No explanation provided.") with
  | JS.VStr s => Some (annotate s)
  | _ => None
  end.

(** The guard [response.data && response.data.prediction]. *)
Definition usable (data : option Response.t) : option Response.t :=
  match data with
  | Some d => if JS.truthy (Response.prediction d) then Some d else None
  | None => None
  end.

(* ------------------------------------------------------------------ *)
(** ** Component state *)

Module Point.
(** One element of [timeSeriesData]. *)
Record t : Type :=
  { time : string;
    data : list (string * Z);
    prediction : JS.value;
    confidence : JS.value;
    reason : string }.
End Point.

Module Result.
(** A row of [randomResults]; [time] is present only on the rows written
    by the continuous mode. *)
Record row : Type :=
  { id : nat;
    data : list (string * Z);
    prediction : JS.value;
    time : option string;
    reason : string }.

(** [randomResults] holds rows followed by one object
    [{ chartData: [{name, value}, {name, value}] }]. *)
Inductive t : Type :=
| Row (r : row)
| Chart (chartData : list (string * nat)).
End Result.

Record State : Type :=
  { formData : list (string * JS.value);
    prediction : JS.value;
    reason : string;
    randomResults : list Result.t;
    isLoading : bool;
    isContinuous : bool;
    timeSeriesData : list Point.t;
    errorMessage : string }.

Definition initialFormData : list (string * JS.value) :=
  map (fun kl : string * string => (fst kl, JS.VStr "")) featureLabels.

(** The arguments of the [useState] calls. *)
Definition initialState : State :=
  {| formData := initialFormData;
     prediction := JS.VStr "";
     reason := "";
     randomResults := [];
     isLoading := false;
     isContinuous := false;
     timeSeriesData := [];
     errorMessage := "" |}.

Definition setFormData (v : list (string * JS.value)) (s : State) : State :=
  {| formData := v; prediction := prediction s; reason := reason s;
     randomResults := randomResults s; isLoading := isLoading s;
     isContinuous := isContinuous s; timeSeriesData := timeSeriesData s;
     errorMessage := errorMessage s |}.

Definition setPrediction (v : JS.value) (s : State) : State :=
  {| formData := formData s; prediction := v; reason := reason s;
     randomResults := randomResults s; isLoading := isLoading s;
     isContinuous := isContinuous s; timeSeriesData := timeSeriesData s;
     errorMessage := errorMessage s |}.

Definition setReason (v : string) (s : State) : State :=
  {| formData := formData s; prediction := prediction s; reason := v;
     randomResults := randomResults s; isLoading := isLoading s;
     isContinuous := isContinuous s; timeSeriesData := timeSeriesData s;
     errorMessage := errorMessage s |}.

Definition setRandomResults (v : list Result.t) (s : State) : State :=
  {| formData := formData s; prediction := prediction s; reason := reason s;
     randomResults := v; isLoading := isLoading s;
     isContinuous := isContinuous s; timeSeriesData := timeSeriesData s;
     errorMessage := errorMessage s |}.

Definition setIsLoading (v : bool) (s : State) : State :=
  {| formData := formData s; prediction := prediction s; reason := reason s;
     randomResults := randomResults s; isLoading := v;
     isContinuous := isContinuous s; timeSeriesData := timeSeriesData s;
     errorMessage := errorMessage s |}.

Definition setIsContinuous (v : bool) (s : State) : State :=
  {| formData := formData s; prediction := prediction s; reason := reason s;
     randomResults := randomResults s; isLoading := isLoading s;
     isContinuous := v; timeSeriesData := timeSeriesData s;
     errorMessage := errorMessage s |}.

(** [setTimeSeriesData] with an updater function; a plain value [v] is the
    updater [fun _ => v]. *)
Definition setTimeSeriesData (f : list Point.t -> list Point.t) (s : State) : State :=
  {| formData := formData s; prediction := prediction s; reason := reason s;
     randomResults := randomResults s; isLoading := isLoading s;
     isContinuous := isContinuous s; timeSeriesData := f (timeSeriesData s);
     errorMessage := errorMessage s |}.

Definition setErrorMessage (v : string) (s : State) : State :=
  {| formData := formData s; prediction := prediction s; reason := reason s;
     randomResults := randomResults s; isLoading := isLoading s;
     isContinuous := isContinuous s; timeSeriesData := timeSeriesData s;
     errorMessage := v |}.

Definition connectionFailure : string :=
  "Failed to connect to API. Make sure the Flask server is running.".

(** The random sample as it is stored in [formData]. *)
Definition asFormData (randomData : list (string * Z)) : list (string * JS.value) :=
  map (fun kv : string * Z => (fst kv, JS.VNum (inject_Z (snd kv)))) randomData.

(* ------------------------------------------------------------------ *)
(** ** History window and its summary *)

(** [arr.slice(start)] for [0 <= start]. *)
Definition slice {A : Type} (start : nat) (arr : list A) : list A := skipn start arr.

(** The updater passed to [setTimeSeriesData] by a successful tick. *)
Definition appendPoint (p : Point.t) (prevData : list Point.t) : list Point.t :=
  let newData := (prevData ++ [p])%list in
  if (20 <? List.length newData)%nat
  then slice (List.length newData - 20) newData
  else newData.

Definition labelled (label : string) (item : Point.t) : bool :=
  JS.strictEq (Point.prediction item) label.

(** [arr.map((item, index) => f(item, index))]. *)
Fixpoint mapIndexed {A B : Type} (f : A -> nat -> B) (index : nat) (arr : list A) : list B :=
  match arr with
  | [] => []
  | item :: rest => f item index :: mapIndexed f (S index) rest
  end.

(** The value passed to [setRandomResults] by a successful tick. It is
    computed from the [timeSeriesData] of the enclosing render; [item.reason
    || ""] is [item.reason], a string. *)
Definition continuousSummary (timeSeriesData_r : list Point.t) : list Result.t :=
  let maliciousCount := List.length (filter (labelled "Malicious") timeSeriesData_r) in
  let normalCount := List.length (filter (labelled "Normal") timeSeriesData_r) in
  (mapIndexed (fun item index =>
                 Result.Row {| Result.id := index + 1;
                               Result.data := Point.data item;
                               Result.prediction := Point.prediction item;
                               Result.time := Some (Point.time item);
                               Result.reason := Point.reason item |})
              0 timeSeriesData_r
   ++ [ Result.Chart [ ("Malicious", maliciousCount); ("Normal", normalCount) ] ])%list.

(** The counts a [chartData] object shows. *)
Definition chartCounts (rs : list Result.t) : option (nat * nat) :=
  match last rs (Result.Chart []) with
  | Result.Chart [ (_, m); (_, n) ] => Some (m, n)
  | _ => None
  end.

(* ------------------------------------------------------------------ *)
(** ** The page with its timers and requests in flight *)

(** A call of [makeContinuousPrediction] suspended at its [await]: the
    [timeSeriesData] its closure captured and the sample it sent. *)
Record tick : Type :=
  { captured : list Point.t; randomData : list (string * Z) }.

Record World : Type :=
  { view : State;
    intervalRef : option nat;                 (* intervalRef.current *)
    timers : list (nat * list Point.t);       (* live intervals, each with the
                                                 [timeSeriesData] captured by
                                                 its callback *)
    nextTimer : nat;
    inFlight : list (nat * tick);
    nextRequest : nat }.

(** Browsers number timers from 1. *)
Definition initialWorld : World :=
  {| view := initialState; intervalRef := None; timers := [];
     nextTimer := 1; inFlight := []; nextRequest := 0 |}.

Definition onView (f : State -> State) (w : World) : World :=
  {| view := f (view w); intervalRef := intervalRef w; timers := timers w;
     nextTimer := nextTimer w; inFlight := inFlight w; nextRequest := nextRequest w |}.

Definition setIntervalRef (r : option nat) (w : World) : World :=
  {| view := view w; intervalRef := r; timers := timers w;
     nextTimer := nextTimer w; inFlight := inFlight w; nextRequest := nextRequest w |}.

(** [if (intervalRef.current)]: [null] and the number 0 are falsy. *)
Definition refTruthy (r : option nat) : option nat :=
  match r with
  | Some (S k) => Some (S k)
  | _ => None
  end.

Definition clearInterval (id : nat) (w : World) : World :=
  {| view := view w; intervalRef := intervalRef w;
     timers := filter (fun t => negb (Nat.eqb (fst t) id)) (timers w);
     nextTimer := nextTimer w; inFlight := inFlight w; nextRequest := nextRequest w |}.

(** [setInterval(makeContinuousPrediction, 5000)]; returns the new timer's
    number. *)
Definition setInterval (timeSeriesData_r : list Point.t) (w : World) : nat * World :=
  (nextTimer w,
   {| view := view w; intervalRef := intervalRef w;
      timers := (timers w ++ [(nextTimer w, timeSeriesData_r)])%list;
      nextTimer := S (nextTimer w); inFlight := inFlight w;
      nextRequest := nextRequest w |}).

(** [axios.post] from a tick: the request is recorded as in flight. *)
Definition post (t : tick) (w : World) : World :=
  {| view := view w; intervalRef := intervalRef w; timers := timers w;
     nextTimer := nextTimer w;
     inFlight := (inFlight w ++ [(nextRequest w, t)])%list;
     nextRequest := S (nextRequest w) |}.

Definition lookupRequest (req : nat) (w : World) : option tick :=
  option_map snd (find (fun r => Nat.eqb (fst r) req) (inFlight w)).

Definition settle (req : nat) (w : World) : World :=
  {| view := view w; intervalRef := intervalRef w; timers := timers w;
     nextTimer := nextTimer w;
     inFlight := filter (fun r => negb (Nat.eqb (fst r) req)) (inFlight w);
     nextRequest := nextRequest w |}.

(* ------------------------------------------------------------------ *)
(** ** Continuous monitoring *)

(** [makeContinuousPrediction] up to its [await]. *)
Definition makeContinuousPrediction_call
    (timeSeriesData_r : list Point.t) (rand : nat -> JS.double) (w : World) : World :=
  let randomData := generateRandomData rand in
  let w := onView (setFormData (asFormData randomData)) w in
  post {| captured := timeSeriesData_r; randomData := randomData |} w.

(** The [catch] block of [makeContinuousPrediction]. *)
Definition continuousCatch (w : World) : World :=
  let w := onView (setErrorMessage connectionFailure) w in
  let w :=
    match refTruthy (intervalRef w) with
    | Some id => setIntervalRef None (clearInterval id w)
    | None => w
    end in
  onView (setIsContinuous false) w.

(** [makeContinuousPrediction] from its [await] on; [now] is
    [new Date().toLocaleTimeString()]. *)
Definition makeContinuousPrediction_resume
    (t : tick) (out : outcome) (now : string) (w : World) : World :=
  match out with
  | Rejected => continuousCatch w
  | Resolved data =>
      match usable data with
      | None => w
      | Some d =>
          let w := onView (setPrediction (Response.prediction d)) w in
          match reasonTextOf d with
          | None => continuousCatch w
          | Some reasonText =>
              let w := onView (setReason reasonText) w in
              let w := onView (setErrorMessage "") w in
              let point :=
                {| Point.time := now;
                   Point.data := randomData t;
                   Point.prediction := Response.prediction d;
                   Point.confidence :=
                     JS.orElse (Response.confidence d) (JS.VNum 0);
                   Point.reason := reasonText |} in
              let w := onView (setTimeSeriesData (appendPoint point)) w in
              onView (setRandomResults (continuousSummary (captured t))) w
          end
      end
  end.

(** The branch of [toggleContinuousPrediction] under
    "Stop continuous prediction". *)
Definition stopContinuous (w : World) : World :=
  let w :=
    match refTruthy (intervalRef w) with
    | Some id => setIntervalRef None (clearInterval id w)
    | None => w
    end in
  onView (setIsContinuous false) w.

(** The branch under "Start continuous prediction". *)
Definition startContinuous
    (timeSeriesData_r : list Point.t) (rand : nat -> JS.double) (w : World) : World :=
  let w := onView (setIsContinuous true) w in
  let w := onView (setTimeSeriesData (fun _ => [])) w in
  let w := makeContinuousPrediction_call timeSeriesData_r rand w in
  let (id, w) := setInterval timeSeriesData_r w in
  setIntervalRef (Some id) w.

Definition toggleContinuousPrediction
    (isContinuous_r : bool) (timeSeriesData_r : list Point.t)
    (rand : nat -> JS.double) (w : World) : World :=
  if isContinuous_r then stopContinuous w
  else startContinuous timeSeriesData_r rand w.

(** What can happen to the page. The button's handler is the one of the
    latest render, so it reads the current state. *)
Inductive event : Type :=
| Click (rand : nat -> JS.double)
| TimerFire (id : nat) (rand : nat -> JS.double)
| Settle (req : nat) (out : outcome) (now : string).

Definition step (w : World) (e : event) : World :=
  match e with
  | Click rand =>
      toggleContinuousPrediction
        (isContinuous (view w)) (timeSeriesData (view w)) rand w
  | TimerFire id rand =>
      match find (fun t => Nat.eqb (fst t) id) (timers w) with
      | Some (_, timeSeriesData_r) => makeContinuousPrediction_call timeSeriesData_r rand w
      | None => w
      end
  | Settle req out now =>
      match lookupRequest req w with
      | Some t => makeContinuousPrediction_resume t out now (settle req w)
      | None => w
      end
  end.

Definition run (events : list event) (w : World) : World := fold_left step events w.

(* ------------------------------------------------------------------ *)
(** ** Manual submission *)

(** [handleSubmit] up to its [await]. *)
Definition handleSubmit_call (s : State) : State := setIsLoading true s.

(** [handleSubmit] from its [await] on, [finally] included. *)
Definition handleSubmit_resume (out : outcome) (s : State) : State :=
  let failed (s : State) :=
    setErrorMessage connectionFailure
      (setReason "" (setPrediction (JS.VStr "Error making prediction.") s)) in
  let s :=
    match out with
    | Rejected => failed s
    | Resolved data =>
        match usable data with
        | Some d =>
            let s := setPrediction (Response.prediction d) s in
            match reasonTextOf d with
            | Some reasonText => setErrorMessage "" (setReason reasonText s)
            | None => failed s
            end
        | None =>
            setReason "" (setPrediction (JS.VStr "Unexpected response format") s)
        end
    end in
  setIsLoading false s.

Definition handleSubmit (out : outcome) (s : State) : State :=
  handleSubmit_resume out (handleSubmit_call s).

(* ------------------------------------------------------------------ *)
(** ** Batch run *)

(** The local variables of [generateMultipleRandomPredictions], with the
    component state its [catch] block writes to. *)
Record batch : Type :=
  { results : list Result.row;
    maliciousCount : nat;
    normalCount : nat;
    shown : State }.

(** The body of the [for] loop for index [i]; [rand] are the draws of this
    iteration and [out] the way its request settles. *)
Definition batchItem (rand : nat -> JS.double) (out : outcome) (i : nat) (b : batch) : batch :=
  let randomData := generateRandomData rand in
  let caught :=
    {| results := results b; maliciousCount := maliciousCount b;
       normalCount := normalCount b;
       shown := setErrorMessage connectionFailure (shown b) |} in
  match out with
  | Rejected => caught
  | Resolved data =>
      match usable data with
      | None => b
      | Some d =>
          match reasonTextOf d with
          | None => caught
          | Some reasonText =>
              let result :=
                {| Result.id := i + 1;
                   Result.data := randomData;
                   Result.prediction := Response.prediction d;
                   Result.time := None;
                   Result.reason := reasonText |} in
              if JS.strictEq (Response.prediction d) "Malicious"
              then {| results := (results b ++ [result])%list;
                      maliciousCount := S (maliciousCount b);
                      normalCount := normalCount b;
                      shown := shown b |}
              else {| results := (results b ++ [result])%list;
                      maliciousCount := maliciousCount b;
                      normalCount := S (normalCount b);
                      shown := shown b |}
          end
      end
  end.

(** [for (let i = 0; i < count; i++)], entered with [remaining = count - i]. *)
Fixpoint batchLoop (rand : nat -> nat -> JS.double) (answers : nat -> outcome)
    (remaining i : nat) (b : batch) : batch :=
  match remaining with
  | O => b
  | S remaining' =>
      batchLoop rand answers remaining' (S i) (batchItem (rand i) (answers i) i b)
  end.

Definition batchRun (count : nat) (rand : nat -> nat -> JS.double)
    (answers : nat -> outcome) (s : State) : batch :=
  batchLoop rand answers count 0
    {| results := []; maliciousCount := 0; normalCount := 0;
       shown := setIsLoading true s |}.

(** [generateMultipleRandomPredictions(count)]: [rand i] are the draws of
    iteration [i] and [answers i] the way its request settles. *)
Definition generateMultipleRandomPredictions (count : nat)
    (rand : nat -> nat -> JS.double) (answers : nat -> outcome) (s : State) : State :=
  let b := batchRun count rand answers s in
  let s := setRandomResults
             (map Result.Row (results b)
              ++ [ Result.Chart [ ("Malicious", maliciousCount b);
                                  ("Normal", normalCount b) ] ])%list
             (shown b) in
  setIsLoading false s.

(* ------------------------------------------------------------------ *)
(** ** The form *)

(** [obj[key]] for an own property of a plain object, kept as the list of
    its entries in enumeration order. *)
Fixpoint objectGet {V : Type} (key : string) (obj : list (string * V)) : option V :=
  match obj with
  | [] => None
  | (k, v) :: rest => if String.eqb k key then Some v else objectGet key rest
  end.

(** [{ ...obj, [key]: v }]: an entry that exists keeps its place and takes
    the new value; a new entry goes last (as every key that is not an
    array index does; the form has no such field). *)
Fixpoint objectSet {V : Type} (key : string) (v : V) (obj : list (string * V))
  : list (string * V) :=
  match obj with
  | [] => [(key, v)]
  | (k, x) :: rest =>
      if String.eqb k key then (k, v) :: rest else (k, x) :: objectSet key v rest
  end.

(** [handleChange], for the input named [name] now holding the text
    [value]. The inputs are rendered from [Object.keys(formData)], so [name]
    is a key of the form. *)
Definition handleChange (formData_r : list (string * JS.value))
    (name value : string) (s : State) : State :=
  setFormData (objectSet name (JS.VStr value) formData_r) s.

(** The [catch] block of [handleGenerateRandom]. *)
Definition generateRandomCatch (s : State) : State :=
  setErrorMessage connectionFailure
    (setReason "" (setPrediction (JS.VStr "Error making prediction.") s)).

(** [handleGenerateRandom] up to its [await]. *)
Definition handleGenerateRandom_call (rand : nat -> JS.double) (s : State) : State :=
  let s := setIsLoading true s in
  let randomData := generateRandomData rand in
  setFormData (asFormData randomData) s.

(** [handleGenerateRandom] from its [await] on, [finally] included. The
    [if] on the answer has no [else]. *)
Definition handleGenerateRandom_resume (out : outcome) (s : State) : State :=
  let s :=
    match out with
    | Rejected => generateRandomCatch s
    | Resolved data =>
        match usable data with
        | Some d =>
            let s := setPrediction (Response.prediction d) s in
            match reasonTextOf d with
            | Some reasonText => setErrorMessage "" (setReason reasonText s)
            | None => generateRandomCatch s
            end
        | None => s
        end
    end in
  setIsLoading false s.

Definition handleGenerateRandom (rand : nat -> JS.double) (out : outcome)
    (s : State) : State :=
  handleGenerateRandom_resume out (handleGenerateRandom_call rand s).

(* ------------------------------------------------------------------ *)
(** ** What the page shows *)

(** The two panels [renderPredictionDescription] can return. *)
Inductive description : Type :=
| PotentialThreat     (* className "prediction-description malicious" *)
| NormalTraffic.      (* className "prediction-description normal" *)

(** [renderPredictionDescription], reading the [prediction] of its render;
    [None] is [null]. *)
Definition renderPredictionDescription (prediction_r : JS.value) : option description :=
  if negb (JS.truthy prediction_r) then None
  else if JS.strictEq prediction_r "Malicious" then Some PotentialThreat
  else Some NormalTraffic.

(** The properties every plain object inherits from [Object.prototype];
    each holds a function or an object. *)
Definition objectPrototype : list string :=
  [ "constructor"; "__proto__"; "hasOwnProperty"; "isPrototypeOf";
    "propertyIsEnumerable"; "toLocaleString"; "toString"; "valueOf";
    "__defineGetter__"; "__defineSetter__"; "__lookupGetter__";
    "__lookupSetter__" ].

(** [featureLabels[key]]. *)
Definition featureLabelOf (key : string) : JS.value :=
  match objectGet key featureLabels with
  | Some label => JS.VStr label
  | None =>
      if existsb (String.eqb key) objectPrototype then JS.VObject
      else JS.VUndefined
  end.

(** [renderDataValues]: [None] is [null]; otherwise one item per key of
    [data], holding what is put in the label and in the value [span]. *)
Definition renderDataValues {V : Type} (data : option (list (string * V)))
  : option (list (JS.value * V)) :=
  match data with
  | None => None
  | Some d =>
      Some (map (fun kv : string * V =>
                   (JS.orElse (featureLabelOf (fst kv)) (JS.VStr (fst kv)), snd kv))
                d)
  end.

(** All the elements, if none is missing. A missing element stands for
    an exception thrown while that element was built. *)
Fixpoint sequence {A : Type} (xs : list (option A)) : option (list A) :=
  match xs with
  | [] => Some []
  | None :: _ => None
  | Some x :: rest =>
      match sequence rest with
      | Some ys => Some (x :: ys)
      | None => None
      end
  end.

Module Timeline.
(** A line of the table "Recent Alert History": the number in its first
    cell, the time, whether the warning icon is shown, the label, and the
    text of the reason cell. *)
Record row : Type :=
  { number : nat; time : string; alert : bool; status : string; reason : string }.
End Timeline.

(** The callback of [timeSeriesData.slice().reverse().map(...)]. The
    class name calls [result.prediction.toLowerCase()], which throws on
    anything but a string; the class name itself is styling and is not
    kept. *)
Definition timelineRow (length_r : nat) (result : Point.t) (index : nat)
  : option Timeline.row :=
  match Point.prediction result with
  | JS.VStr label =>
      Some {| Timeline.number := length_r - index;
              Timeline.time := Point.time result;
              Timeline.alert := String.eqb label "Malicious";
              Timeline.status := label;
              Timeline.reason :=
                if String.eqb (Point.reason result) ""
                then "No explanation available"
                else Point.reason result |}
  | _ => None
  end.

Definition timelineRows (timeSeriesData_r : list Point.t) : option (list Timeline.row) :=
  sequence (mapIndexed (timelineRow (List.length timeSeriesData_r)) 0
                       (rev timeSeriesData_r)).

(** The [data] of the line chart: [name], [isMalicious], [index]. *)
Definition lineChartData (timeSeriesData_r : list Point.t) : list (string * nat * nat) :=
  mapIndexed (fun item index =>
                (Point.time item,
                 if JS.strictEq (Point.prediction item) "Malicious" then 1 else 0,
                 index))
             0 timeSeriesData_r.

(** The [data] of the pie and bar charts of the monitoring tab, computed
    at render time. *)
Definition timelineDistribution (timeSeriesData_r : list Point.t) : list (string * nat) :=
  [ ("Malicious", List.length (filter (labelled "Malicious") timeSeriesData_r));
    ("Normal", List.length (filter (labelled "Normal") timeSeriesData_r)) ].

Module BatchTable.
(** A line of the table "Detailed Results". *)
Record row : Type :=
  { id : nat; alert : bool; status : string; reason : string }.
End BatchTable.

(** The callback of [randomResults.slice(0, -1).map(...)]; on the chart
    object, or on a row whose label is not a string,
    [result.prediction.toLowerCase()] throws. *)
Definition batchTableRow (result : Result.t) : option BatchTable.row :=
  match result with
  | Result.Row r =>
      match Result.prediction r with
      | JS.VStr label =>
          Some {| BatchTable.id := Result.id r;
                  BatchTable.alert := String.eqb label "Malicious";
                  BatchTable.status := label;
                  BatchTable.reason := Result.reason r |}
      | _ => None
      end
  | Result.Chart _ => None
  end.

Definition batchTableRows (randomResults_r : list Result.t) : option (list BatchTable.row) :=
  sequence (map batchTableRow (removelast randomResults_r)).

(** [randomResults[randomResults.length-1].chartData] as the charts of the
    batch tab use it: mapping over it throws unless the last element is
    the chart object. *)
Definition batchChart (randomResults_r : list Result.t) : option (list (string * nat)) :=
  match rev randomResults_r with
  | Result.Chart chartData :: _ => Some chartData
  | _ => None
  end.

(** The clean-up returned by the [useEffect]: run when the component is
    removed from the page. *)
Definition unmount (w : World) : World :=
  match refTruthy (intervalRef w) with
  | Some id => clearInterval id w
  | None => w
  end.

(* ------------------------------------------------------------------ *)
(** ** Predicates used to state the properties *)

(** [t] is [s] with the leftmost occurrence of [key] replaced by [label],
    or [s] itself when [key] does not occur in it. *)
Inductive rewritesFirst (key label : string) : string -> string -> Prop :=
| rewrites_absent (s : string) :
    (forall pre post, s <> (pre ++ key ++ post)%string) ->
    rewritesFirst key label s s
| rewrites_leftmost (pre post : string) :
    (forall pre' post',
        (pre ++ key ++ post)%string = (pre' ++ key ++ post')%string ->
        String.length pre <= String.length pre') ->
    rewritesFirst key label (pre ++ key ++ post)%string (pre ++ label ++ post)%string.

(** One [rewritesFirst] step per entry of the table, in order. *)
Inductive rewritesEach : list (string * string) -> string -> string -> Prop :=
| rewritesEach_nil (s : string) : rewritesEach [] s s
| rewritesEach_cons (key label : string) (rest : list (string * string))
    (s t u : string) :
    rewritesFirst key label s t ->
    rewritesEach rest t u ->
    rewritesEach ((key, label) :: rest) s u.

(** The [try] block of a handler is left through its [catch]: the request
    is rejected, or the answer carries a truthy [reason] that is not a
    string, on which [replace] is not a function. *)
Definition throws (out : outcome) : bool :=
  match out with
  | Rejected => true
  | Resolved data =>
      match usable data with
      | Some d => match reasonTextOf d with Some _ => false | None => true end
      | None => false
      end
  end.

(** The history point a tick builds from its sample, the answer and the
    clock. *)
Definition pointOf (t : tick) (d : Response.t) (reasonText now : string) : Point.t :=
  {| Point.time := now;
     Point.data := randomData t;
     Point.prediction := Response.prediction d;
     Point.confidence := JS.orElse (Response.confidence d) (JS.VNum 0);
     Point.reason := reasonText |}.

(** What holds of the timer bookkeeping in every state the page reaches:
    the only live interval is the one [intervalRef] holds, its number is not
    0, and there is none while the monitoring is off. *)
Definition tidy (w : World) : Prop :=
  1 <= nextTimer w /\
  (isContinuous (view w) = false -> intervalRef w = None) /\
  match intervalRef w with
  | None => timers w = []
  | Some id => 1 <= id /\ exists c, timers w = [(id, c)]
  end.

(** A manual submission fails: the [try] block throws, or the answer has
    no usable label. *)
Definition submitFails (out : outcome) : bool :=
  match out with
  | Rejected => true
  | Resolved data =>
      match usable data with
      | Some _ => throws out
      | None => true
      end
  end.

(** The row a batch item contributes when its request is answered with a
    usable label and a readable reason. *)
Definition rowOf (rand : nat -> JS.double) (out : outcome) (i : nat) : option Result.row :=
  match out with
  | Rejected => None
  | Resolved data =>
      match usable data with
      | None => None
      | Some d =>
          match reasonTextOf d with
          | None => None
          | Some reasonText =>
              Some {| Result.id := i + 1;
                      Result.data := generateRandomData rand;
                      Result.prediction := Response.prediction d;
                      Result.time := None;
                      Result.reason := reasonText |}
          end
      end
  end.

(** The [reason] of an answer is a string or is falsy (absent, [null],
    ...): the only cases the answer's type allows for. *)
Definition readableReason (d : Response.t) : bool :=
  match Response.reason d with
  | JS.VStr _ => true
  | v => negb (JS.truthy v)
  end.

(** The rows of the items [start], ..., [start + len - 1], in index order. *)
Definition rowsFrom (rand : nat -> nat -> JS.double) (answers : nat -> outcome)
    (start len : nat) : list Result.row :=
  flat_map (fun i => match rowOf (rand i) (answers i) i with
                     | Some r => [r]
                     | None => []
                     end)
           (seq start len).

Definition isMalicious (r : Result.row) : bool :=
  JS.strictEq (Result.prediction r) "Malicious".

Definition notMalicious (r : Result.row) : bool := negb (isMalicious r).

(** The index a member of [randomResults] carries, if any. *)
Definition indexOfResult (x : Result.t) : option nat :=
  match x with
  | Result.Row r => Some (Result.id r)
  | Result.Chart _ => None
  end.

(** The request of a handler is answered with a usable label and a
    readable reason. *)
Definition succeeds (out : outcome) : bool :=
  match out with
  | Rejected => false
  | Resolved data =>
      match usable data with
      | Some d => match reasonTextOf d with Some _ => true | None => false end
      | None => false
      end
  end.

Definition isString (v : JS.value) : bool :=
  match v with JS.VStr _ => true | _ => false end.

(** A tick together with what the environment gives it: the draws of its
    sample, the answer of the classifier and the clock when the answer
    arrives. *)
Record answeredTick : Type :=
  { draws : nat -> JS.double; reply : Response.t; clock : string }.

(** The answer has a usable label and a readable reason. *)
Definition accepted (a : answeredTick) : bool :=
  succeeds (Resolved (Some (reply a))).

(** The history point of an answered tick. *)
Definition tickPoint (a : answeredTick) : Point.t :=
  {| Point.time := clock a;
     Point.data := generateRandomData (draws a);
     Point.prediction := Response.prediction (reply a);
     Point.confidence := JS.orElse (Response.confidence (reply a)) (JS.VNum 0);
     Point.reason := match reasonTextOf (reply a) with
                     | Some text => text
                     | None => ""
                     end |}.

(** The events of the ticks that follow the first one, each answered
    before the next timer event: the interval [timer] fires, then the
    request it sent, numbered from [request] on, is answered. *)
Fixpoint laterTicks (timer request : nat) (ticks : list answeredTick) : list event :=
  match ticks with
  | [] => []
  | a :: rest =>
      TimerFire timer (draws a)
      :: Settle request (Resolved (Some (reply a))) (clock a)
      :: laterTicks timer (S request) rest
  end.

(** The events of a session: the press on the button, which sends the
    first request, the answer to it, then the later ticks. *)
Definition session (timer request : nat) (first : answeredTick)
    (rest : list answeredTick) : list event :=
  Click (draws first)
  :: Settle request (Resolved (Some (reply first))) (clock first)
  :: laterTicks timer (S request) rest.

(** Every request in flight has a number below the next one to be given. *)
Definition fresh (w : World) : Prop :=
  Forall (fun q => fst q < nextRequest w) (inFlight w).

(** *** Inputs used in the examples *)

(** The draw that is always 0. *)
Definition zeroDraws : nat -> JS.double := fun _ => {| JS.mant := 0; JS.expo := 0 |}.

(** The largest binary64 number below 1. *)
Definition largestDraw : JS.double := {| JS.mant := 2 ^ 53 - 1; JS.expo := -53 |}.

(** An answer that carries only a label. *)
Definition answer (label : string) : outcome :=
  Resolved (Some {| Response.prediction := JS.VStr label;
                    Response.confidence := JS.VUndefined;
                    Response.reason := JS.VUndefined |}).

(** The [k]-th point of a made-up session. *)
Definition samplePoint (k : nat) : Point.t :=
  {| Point.time := "10:00:00";
     Point.data := [("Dst Port", Z.of_nat k)];
     Point.prediction := JS.VStr "Normal";
     Point.confidence := JS.VNum 0;
     Point.reason := "No explanation provided." |}.

(** The [k]-th answered tick of a made-up session. *)
Definition sampleTick (k : nat) : answeredTick :=
  {| draws := zeroDraws;
     reply := {| Response.prediction := JS.VStr "Normal";
                 Response.confidence := JS.VNum (inject_Z (Z.of_nat k));
                 Response.reason := JS.VUndefined |};
     clock := "10:00:00" |}.

(** A batch in which only the third request is rejected. *)
Definition thirdRejected (i : nat) : outcome :=
  if Nat.eqb i 2 then Rejected else answer "Normal".

(** An answer whose [data] is an object without [prediction]. *)
Definition answerWithoutLabel : outcome :=
  Resolved (Some {| Response.prediction := JS.VUndefined;
                    Response.confidence := JS.VNum 1;
                    Response.reason := JS.VStr "n/a" |}).

(* ------------------------------------------------------------------ *)
(** ** Proof steps shared by the handlers *)

(** Every handler looks at its answer in the same way: rejected or not,
    usable label or not, readable reason or not. *)
Ltac by_outcome out :=
  let data := fresh "data" in
  let d := fresh "d" in
  let text := fresh "text" in
  destruct out as [|data];
  [ | destruct (usable data) as [d|];
      [ destruct (reasonTextOf d) as [text|] | ] ].

(* ------------------------------------------------------------------ *)
(** ** Strings: [indexOf] and [replace] *)

Section StringFacts.

Lemma append_empty_r (s : string) : (s ++ "")%string = s.
Proof. induction s as [|c s IH]; simpl; congruence. Qed.

Lemma append_assoc (a b c : string) :
  ((a ++ b) ++ c)%string = (a ++ b ++ c)%string.
Proof. induction a as [|x a IH]; simpl; congruence. Qed.

Lemma length_append (a b : string) :
  String.length (a ++ b) = String.length a + String.length b.
Proof. induction a as [|x a IH]; simpl; congruence. Qed.

Lemma substring_head (a b : string) :
  substring 0 (String.length a) (a ++ b) = a.
Proof.
  induction a as [|x a IH]; simpl.
  - destruct b; reflexivity.
  - now rewrite IH.
Qed.

Lemma substring_whole (b : string) : substring 0 (String.length b) b = b.
Proof. rewrite <- (append_empty_r b) at 2. apply substring_head. Qed.

Lemma substring_tail (a b : string) :
  substring (String.length a) (String.length b) (a ++ b) = b.
Proof.
  induction a as [|x a IH]; simpl.
  - apply substring_whole.
  - exact IH.
Qed.

Lemma prefix_append (key post : string) : prefix key (key ++ post) = true.
Proof.
  induction key as [|c key IH]; simpl.
  - destruct post; reflexivity.
  - destruct (ascii_dec c c); [exact IH | congruence].
Qed.

Lemma prefix_split (key s : string) :
  prefix key s = true -> exists post, s = (key ++ post)%string.
Proof.
  revert s. induction key as [|c key IH]; intros s H.
  - exists s. reflexivity.
  - destruct s as [|d s]; simpl in H; [discriminate|].
    destruct (ascii_dec c d) as [->|]; [|discriminate].
    destruct (IH s H) as [post ->]. exists post. reflexivity.
Qed.

Lemma indexOf_unfold (key s : string) :
  JS.indexOf key s =
  if prefix key s then Some 0
  else match s with
       | EmptyString => None
       | String _ s' => option_map S (JS.indexOf key s')
       end.
Proof. destruct s; reflexivity. Qed.

(** [indexOf] answers with a position at which the key starts, and no
    occurrence starts before it. *)
Lemma indexOf_some (key s : string) (pos : nat) :
  JS.indexOf key s = Some pos ->
  exists pre post,
    s = (pre ++ key ++ post)%string /\ String.length pre = pos /\
    forall pre' post',
      s = (pre' ++ key ++ post')%string -> pos <= String.length pre'.
Proof.
  revert pos. induction s as [|c s IH]; intros pos H;
    rewrite indexOf_unfold in H.
  - destruct (prefix key "") eqn:P; [|discriminate].
    injection H as <-. destruct (prefix_split _ _ P) as [post E].
    exists ""%string, post. repeat split; [exact E | intros; lia].
  - destruct (prefix key (String c s)) eqn:P.
    + injection H as <-. destruct (prefix_split _ _ P) as [post E].
      exists ""%string, post. repeat split; [exact E | intros; lia].
    + destruct (JS.indexOf key s) as [k|] eqn:K; [|discriminate].
      injection H as <-.
      destruct (IH k eq_refl) as (pre & post & E & L & Least).
      exists (String c pre), post. repeat split.
      * simpl. now rewrite <- E.
      * simpl. now rewrite L.
      * intros pre' post' E'. destruct pre' as [|d pre'].
        -- simpl in E'. rewrite E' in P. rewrite prefix_append in P. discriminate.
        -- simpl in E'. injection E' as _ E'. specialize (Least _ _ E'). simpl. lia.
Qed.

Lemma indexOf_none (key s : string) :
  JS.indexOf key s = None ->
  forall pre post, s <> (pre ++ key ++ post)%string.
Proof.
  induction s as [|c s IH]; intros H pre post E;
    rewrite indexOf_unfold in H.
  - destruct (prefix key "") eqn:P; [discriminate|].
    destruct pre; simpl in E.
    + rewrite E in P. rewrite prefix_append in P. discriminate.
    + discriminate.
  - destruct (prefix key (String c s)) eqn:P; [discriminate|].
    destruct (JS.indexOf key s) eqn:K; [discriminate|].
    destruct pre as [|d pre]; simpl in E.
    + rewrite E in P. rewrite prefix_append in P. discriminate.
    + injection E as _ E. exact (IH eq_refl _ _ E).
Qed.

Lemma replace_at (pre key post label : string) :
  JS.indexOf key (pre ++ key ++ post) = Some (String.length pre) ->
  JS.replace (pre ++ key ++ post) key label = (pre ++ label ++ post)%string.
Proof.
  intros H. unfold JS.replace. rewrite H.
  rewrite substring_head. f_equal. f_equal.
  rewrite <- append_assoc.
  replace (String.length pre + String.length key)
    with (String.length (pre ++ key)) by apply length_append.
  replace (String.length ((pre ++ key) ++ post) - String.length (pre ++ key))
    with (String.length post) by (rewrite (length_append (pre ++ key)); lia).
  apply substring_tail.
Qed.

Lemma replace_rewritesFirst (s key label : string) :
  rewritesFirst key label s (JS.replace s key label).
Proof.
  destruct (JS.indexOf key s) as [pos|] eqn:K.
  - destruct (indexOf_some _ _ _ K) as (pre & post & -> & L & Least).
    subst pos. rewrite (replace_at _ _ _ _ K).
    apply rewrites_leftmost. exact Least.
  - unfold JS.replace. rewrite K.
    apply rewrites_absent. exact (indexOf_none _ _ K).
Qed.

Lemma fold_rewritesEach (table : list (string * string)) (s : string) :
  rewritesEach table s
    (fold_left (fun text kl => JS.replace text (fst kl) (snd kl)) table s).
Proof.
  revert s. induction table as [|[key label] rest IH]; intros s; simpl.
  - constructor.
  - econstructor; [apply replace_rewritesFirst | apply IH].
Qed.

End StringFacts.

(* ------------------------------------------------------------------ *)
(** ** Explanation rewriting *)

(** No display label contains [$]: [replace] inserts every label as it
    is written. *)
Lemma labels_have_no_dollar :
  forallb (fun kl => negb (JS.includes (snd kl) "$")) featureLabels = true.
Proof. reflexivity. Qed.

(** C2, as stated, fails: a key that occurs twice in the explanation is
    still there, verbatim, after the annotation step. *)
Lemma annotate_leaves_second_occurrence :
  In ("Dst Port", "Destination Port") featureLabels /\
  annotate "Dst Port 80, Dst Port 443" = "Destination Port 80, Dst Port 443" /\
  JS.includes (annotate "Dst Port 80, Dst Port 443") "Dst Port" = true.
Proof. repeat split. left. reflexivity. Qed.

(** The label of [Flow Duration] starts with the key itself, so that key
    is left verbatim even when it occurs once. *)
Lemma annotate_flow_duration_keeps_key :
  annotate "Flow Duration" = "Flow Duration (ms)" /\
  JS.includes (annotate "Flow Duration") "Flow Duration" = true.
Proof. split; reflexivity. Qed.

(** C2, amended: the annotation step goes through the configured keys in
    table order and, for each key, replaces the leftmost occurrence of the
    key in the current text by its display label, leaving the text as it is
    when the key does not occur; it rewrites nothing else. *)
Theorem annotate_rewrites_first_occurrence_only (explanation : string) :
  rewritesEach featureLabels explanation (annotate explanation).
Proof. unfold annotate. apply fold_rewritesEach. Qed.

(* ------------------------------------------------------------------ *)
(** ** Sample generator: range of the generated values *)

Section SampleGenerator.
Local Open Scope Z_scope.

Lemma roundMagnitude_floor_bounds (m n e : Z) :
  0 < m < 2 ^ 53 -> e < 0 -> m < 2 ^ (- e) -> 0 < n ->
  0 <= JS.floor (JS.roundMagnitude (m * n) e) <= n - 1.
Proof.
  intros Hm He HmE Hn.
  assert (HE : 0 < 2 ^ (- e)) by (apply Z.pow_pos_nonneg; lia).
  assert (Hp : 0 < m * n) by nia.
  assert (HpE : m * n + n <= 2 ^ (- e) * n) by nia.
  unfold JS.roundMagnitude.
  destruct (Z.leb_spec (JS.bits (m * n) - 53) 0) as [Hs|Hs].
  - unfold JS.floor; simpl.
    destruct (Z.leb_spec 0 e); [lia|].
    split.
    + apply Z.div_pos; lia.
    + assert (m * n / 2 ^ (- e) < n); [|lia].
      apply Z.div_lt_upper_bound; nia.
  - set (s := JS.bits (m * n) - 53) in *.
    set (half := 2 ^ (s - 1)).
    assert (Hhalf : 0 < half) by (apply Z.pow_pos_nonneg; lia).
    assert (H2s : 2 ^ s = 2 * half).
    { unfold half. replace s with (1 + (s - 1)) at 1 by lia.
      rewrite Z.pow_add_r by lia. reflexivity. }
    assert (Hlog : half * 2 ^ 53 <= m * n).
    { destruct (Z.log2_spec (m * n) Hp) as [Hlo _].
      unfold JS.bits in s.
      replace (Z.log2 (m * n)) with ((s - 1) + 53) in Hlo by (unfold s; lia).
      rewrite Z.pow_add_r in Hlo by lia. exact Hlo. }
    assert (Hhn : half < n) by nia.
    pose proof (Z.div_mod (m * n) (2 ^ s) ltac:(lia)) as Hdm.
    pose proof (Z.mod_pos_bound (m * n) (2 ^ s) ltac:(lia)) as Hr.
    set (q := m * n / 2 ^ s) in *.
    set (r := (m * n) mod 2 ^ s) in *.
    assert (Hq : 0 <= q) by (apply Z.div_pos; lia).
    set (q' := if r <? half then q
               else if half <? r then q + 1
               else if Z.even q then q else q + 1).
    assert (Hq' : 0 <= q' /\ q' * 2 ^ s <= m * n + half).
    { unfold q'. destruct (Z.ltb_spec r half); [nia|].
      destruct (Z.ltb_spec half r); [nia|].
      destruct (Z.even q); nia. }
    destruct Hq' as [Hq'0 Hq'1].
    assert (Hlt : q' * 2 ^ s < 2 ^ (- e) * n) by lia.
    unfold JS.floor; simpl. fold q'.
    destruct (Z.leb_spec 0 (e + s)) as [Hk|Hk].
    + assert (Hpow : 2 ^ s = 2 ^ (e + s) * 2 ^ (- e)).
      { rewrite <- Z.pow_add_r by lia. f_equal. lia. }
      assert (0 < 2 ^ (e + s)) by (apply Z.pow_pos_nonneg; lia).
      split; [nia|].
      assert (q' * 2 ^ (e + s) < n); [|lia].
      rewrite Hpow in Hlt. nia.
    + assert (Hpow : 2 ^ (- e) = 2 ^ (- (e + s)) * 2 ^ s).
      { rewrite <- Z.pow_add_r by lia. f_equal. lia. }
      assert (0 < 2 ^ (- (e + s))) by (apply Z.pow_pos_nonneg; lia).
      split; [apply Z.div_pos; lia|].
      assert (q' / 2 ^ (- (e + s)) < n); [|lia].
      apply Z.div_lt_upper_bound; [lia|].
      rewrite Hpow in Hlt. nia.
Qed.

Lemma generateRandomValue_bounds (r : JS.double) (min max : Z) :
  JS.binary64 r -> JS.unitInterval r -> min <= max ->
  min <= generateRandomValue r min max <= max.
Proof.
  intros [Hm _] Hu Hmm. unfold generateRandomValue, JS.mulInt, JS.roundNearestEven.
  destruct Hu as [H0|(Hpos & He & HmE)].
  - rewrite H0. simpl. unfold JS.floor. simpl.
    destruct (0 <=? JS.expo r); [lia|]. rewrite Zdiv_0_l. lia.
  - destruct (Z.ltb_spec (JS.mant r * (max - min + 1)) 0) as [Hneg|_]; [nia|].
    pose proof (roundMagnitude_floor_bounds (JS.mant r) (max - min + 1)
                  (JS.expo r) ltac:(lia) He HmE ltac:(lia)).
    lia.
Qed.

End SampleGenerator.

(** C8: whatever [Math.random] draws, [generateRandomData] yields, for each
    of the twelve configured fields in order, an integer within the
    field's configured range, both ends included. *)
Theorem generateRandomData_within_ranges (rand : nat -> JS.double) :
  (forall i, JS.binary64 (rand i) /\ JS.unitInterval (rand i)) ->
  Forall2 (fun (generated : string * Z) (configured : string * Range.t) =>
             fst generated = fst configured /\
             (Range.min (snd configured) <= snd generated
              <= Range.max (snd configured))%Z)
          (generateRandomData rand) randomRanges.
Proof.
  intros Hrand. unfold generateRandomData, randomRanges.
  cbn [map combine seq List.length].
  repeat (constructor;
          [ split; [reflexivity|];
            cbn [fst snd Range.min Range.max];
            apply generateRandomValue_bounds;
            [apply Hrand | apply Hrand | lia] | ]).
  constructor.
Qed.

Lemma generateRandomData_within_ranges_witness :
  Forall2 (fun (generated : string * Z) (configured : string * Range.t) =>
             fst generated = fst configured /\
             (Range.min (snd configured) <= snd generated
              <= Range.max (snd configured))%Z)
          (generateRandomData zeroDraws) randomRanges.
Proof.
  apply (generateRandomData_within_ranges zeroDraws).
  intros i. split.
  - unfold JS.binary64, zeroDraws. simpl. lia.
  - left. reflexivity.
Defined.

(* ------------------------------------------------------------------ *)
(** ** History window *)

Section HistoryWindow.

Lemma appendPoint_length (p : Point.t) (prevData : list Point.t) :
  List.length (appendPoint p prevData) <= 20.
Proof.
  unfold appendPoint, slice.
  destruct (Nat.ltb_spec 20 (List.length (prevData ++ [p]))) as [H|H].
  - rewrite length_skipn. lia.
  - exact H.
Qed.

(** While the window is not full, an append adds at the end; once it holds
    20 points, an append also drops the oldest one. *)
Lemma appendPoint_skipn (p : Point.t) (prevData : list Point.t) :
  List.length prevData <= 20 ->
  appendPoint p prevData = skipn (List.length prevData + 1 - 20) (prevData ++ [p]).
Proof.
  intros H. unfold appendPoint, slice. rewrite length_app. simpl.
  destruct (Nat.ltb_spec 20 (List.length prevData + 1)) as [H'|H'].
  - reflexivity.
  - replace (List.length prevData + 1 - 20) with 0 by lia. reflexivity.
Qed.

Lemma appends_skipn (ps : list Point.t) :
  fold_left (fun window p => appendPoint p window) ps []
  = skipn (List.length ps - 20) ps.
Proof.
  induction ps as [|p ps IH] using rev_ind.
  - reflexivity.
  - rewrite fold_left_app. simpl. rewrite IH.
    rewrite appendPoint_skipn by (rewrite length_skipn; lia).
    rewrite length_skipn, length_app. simpl.
    replace (skipn (List.length ps - 20) ps ++ [p])%list
      with (skipn (List.length ps - 20) (ps ++ [p])).
    + rewrite skipn_skipn. f_equal. lia.
    + rewrite skipn_app.
      replace (List.length ps - 20 - List.length ps) with 0 by lia.
      reflexivity.
Qed.

End HistoryWindow.

(* ------------------------------------------------------------------ *)
(** ** Timer bookkeeping of the monitoring loop *)

Section Monitoring.

(** A property of the initial page kept by every event holds in every
    reachable state. *)
Lemma run_preserves (P : World -> Prop) :
  (forall w e, P w -> P (step w e)) ->
  forall events w, P w -> P (run events w).
Proof.
  intros Hstep events. induction events as [|e events IH]; intros w Hw.
  - exact Hw.
  - simpl. apply IH, Hstep, Hw.
Qed.

Lemma tidy_refTruthy (w : World) : tidy w -> refTruthy (intervalRef w) = intervalRef w.
Proof.
  intros (_ & _ & H). destruct (intervalRef w) as [[|id]|]; try reflexivity.
  destruct H as [H _]. lia.
Qed.

(** The block shared by the stop branch and the [catch] block, on a tidy
    page: afterwards no interval is live. *)
Lemma tidy_cleared (w : World) :
  tidy w ->
  forall w',
    w' = match refTruthy (intervalRef w) with
         | Some id => setIntervalRef None (clearInterval id w)
         | None => w
         end ->
    intervalRef w' = None /\ timers w' = [] /\ view w' = view w /\
    nextTimer w' = nextTimer w /\ inFlight w' = inFlight w.
Proof.
  intros Ht w' ->. rewrite (tidy_refTruthy _ Ht).
  destruct Ht as (_ & _ & H).
  destruct (intervalRef w) as [id|] eqn:E.
  - destruct H as [_ [c Hc]]. simpl. rewrite Hc. simpl.
    rewrite Nat.eqb_refl. simpl. repeat split.
  - rewrite E. repeat split. exact H.
Qed.

Lemma stopContinuous_tidy (w : World) :
  tidy w ->
  intervalRef (stopContinuous w) = None /\ timers (stopContinuous w) = [] /\
  isContinuous (view (stopContinuous w)) = false /\
  timeSeriesData (view (stopContinuous w)) = timeSeriesData (view w) /\
  errorMessage (view (stopContinuous w)) = errorMessage (view w) /\
  nextTimer (stopContinuous w) = nextTimer w /\
  inFlight (stopContinuous w) = inFlight w.
Proof.
  intros Ht. unfold stopContinuous.
  destruct (tidy_cleared w Ht _ eq_refl) as (H1 & H2 & H3 & H4 & H5).
  simpl. rewrite H1, H2, H3, H4, H5. repeat split.
Qed.

Lemma continuousCatch_tidy (w : World) :
  tidy w ->
  intervalRef (continuousCatch w) = None /\ timers (continuousCatch w) = [] /\
  isContinuous (view (continuousCatch w)) = false /\
  timeSeriesData (view (continuousCatch w)) = timeSeriesData (view w) /\
  errorMessage (view (continuousCatch w)) = connectionFailure /\
  nextTimer (continuousCatch w) = nextTimer w /\
  inFlight (continuousCatch w) = inFlight w.
Proof.
  intros Ht. unfold continuousCatch.
  assert (Ht' : tidy (onView (setErrorMessage connectionFailure) w)) by exact Ht.
  destruct (tidy_cleared _ Ht' _ eq_refl) as (H1 & H2 & H3 & H4 & H5).
  simpl. simpl in H1, H2, H3, H4, H5. rewrite H1, H2, H3, H4, H5. repeat split.
Qed.

Lemma tidy_initial : tidy initialWorld.
Proof. unfold tidy. simpl. repeat split; auto. Qed.

Lemma tidy_call (c : list Point.t) (rand : nat -> JS.double) (w : World) :
  tidy w -> tidy (makeContinuousPrediction_call c rand w).
Proof. intros Ht. exact Ht. Qed.

Lemma tidy_resume (t : tick) (out : outcome) (now : string) (w : World) :
  tidy w -> tidy (makeContinuousPrediction_resume t out now w).
Proof.
  intros Ht.
  assert (Hcatch : forall w0, tidy w0 -> tidy (continuousCatch w0)).
  { intros w0 H0. destruct (continuousCatch_tidy w0 H0) as (H1 & H2 & H3 & _ & _ & H6 & _).
    unfold tidy. rewrite H1, H2, H6. repeat split; auto. apply H0. }
  unfold makeContinuousPrediction_resume.
  by_outcome out; try exact Ht; apply Hcatch; exact Ht.
Qed.

Lemma tidy_step (w : World) (e : event) : tidy w -> tidy (step w e).
Proof.
  intros Ht. destruct e as [rand|id rand|req out now]; simpl.
  - unfold toggleContinuousPrediction.
    destruct (isContinuous (view w)) eqn:Hc.
    + destruct (stopContinuous_tidy w Ht) as (H1 & H2 & H3 & _ & _ & H6 & _).
      unfold tidy. rewrite H1, H2, H6. repeat split; auto. apply Ht.
    + destruct Ht as (Hn & Hidle & Hmatch).
      rewrite (Hidle Hc) in Hmatch.
      unfold tidy, startContinuous. simpl. rewrite Hmatch. simpl.
      repeat split; try lia; try discriminate. eexists. reflexivity.
  - destruct (find _ (timers w)) as [[i c]|]; [apply tidy_call|]; exact Ht.
  - destruct (lookupRequest req w); [|exact Ht].
    apply tidy_resume. exact Ht.
Qed.

Lemma tidy_run (events : list event) : tidy (run events initialWorld).
Proof. apply run_preserves; [exact tidy_step | exact tidy_initial]. Qed.

(** Without a live interval a timer event starts nothing. *)
Lemma no_timer_no_tick (w : World) (id : nat) (rand : nat -> JS.double) :
  timers w = [] -> step w (TimerFire id rand) = w.
Proof. intros H. simpl. rewrite H. reflexivity. Qed.

Lemma window_step (w : World) (e : event) :
  List.length (timeSeriesData (view w)) <= 20 ->
  List.length (timeSeriesData (view (step w e))) <= 20.
Proof.
  intros Hw. destruct e as [rand|id rand|req out now]; simpl.
  - unfold toggleContinuousPrediction.
    destruct (isContinuous (view w)).
    + unfold stopContinuous.
      destruct (refTruthy (intervalRef w)); exact Hw.
    + simpl. lia.
  - destruct (find _ (timers w)) as [[i c]|]; exact Hw.
  - destruct (lookupRequest req w) as [t|]; [|exact Hw].
    unfold makeContinuousPrediction_resume, continuousCatch.
    destruct out as [|data].
    + simpl. destruct (refTruthy (intervalRef w)); exact Hw.
    + destruct (usable data) as [d|]; [|exact Hw].
      destruct (reasonTextOf d) as [reasonText|].
      * simpl. apply appendPoint_length.
      * simpl. destruct (refTruthy (intervalRef w)); exact Hw.
Qed.

End Monitoring.

(* ------------------------------------------------------------------ *)
(** ** A session of answered ticks *)

Section Sessions.

Lemma run_cons (e : event) (events : list event) (w : World) :
  run (e :: events) w = run events (step w e).
Proof. reflexivity. Qed.

Lemma find_posted (l : list (nat * tick)) (r : nat) (t : tick) :
  Forall (fun q => fst q < r) l ->
  find (fun q => Nat.eqb (fst q) r) (l ++ [(r, t)]) = Some (r, t).
Proof.
  induction l as [|q l IH]; intros H; simpl.
  - now rewrite Nat.eqb_refl.
  - inversion H as [|? ? Hq Hl]; subst.
    destruct (Nat.eqb_spec (fst q) r); [lia | exact (IH Hl)].
Qed.

Lemma filter_posted (l : list (nat * tick)) (r : nat) (t : tick) :
  Forall (fun q => fst q < r) l ->
  filter (fun q => negb (Nat.eqb (fst q) r)) (l ++ [(r, t)]) = l.
Proof.
  induction l as [|q l IH]; intros H; simpl.
  - now rewrite Nat.eqb_refl.
  - inversion H as [|? ? Hq Hl]; subst.
    destruct (Nat.eqb_spec (fst q) r); [lia|]. simpl. f_equal. exact (IH Hl).
Qed.

Lemma fresh_step (w : World) (e : event) : fresh w -> fresh (step w e).
Proof.
  unfold fresh. intros Hw.
  assert (Hpost : forall c rand w0,
             Forall (fun q => fst q < nextRequest w0) (inFlight w0) ->
             Forall (fun q => fst q < nextRequest (makeContinuousPrediction_call c rand w0))
                    (inFlight (makeContinuousPrediction_call c rand w0))).
  { intros c rand w0 H0. simpl. apply Forall_app. split.
    - eapply Forall_impl; [|exact H0]. simpl. intros q Hq. lia.
    - constructor; [simpl; lia | constructor]. }
  assert (Hcatch : forall w0,
             Forall (fun q => fst q < nextRequest w0) (inFlight w0) ->
             Forall (fun q => fst q < nextRequest (continuousCatch w0))
                    (inFlight (continuousCatch w0))).
  { intros w0 H0. unfold continuousCatch. simpl.
    destruct (refTruthy (intervalRef w0)); exact H0. }
  destruct e as [rand|id rand|req out now]; cbn [step].
  - unfold toggleContinuousPrediction. destruct (isContinuous (view w)).
    + unfold stopContinuous. destruct (refTruthy (intervalRef w)); exact Hw.
    + unfold startContinuous. simpl. apply Forall_app. split.
      * eapply Forall_impl; [|exact Hw]. simpl. intros q Hq. lia.
      * constructor; [simpl; lia | constructor].
  - destruct (find _ (timers w)) as [[i c]|]; [apply Hpost|]; exact Hw.
  - destruct (lookupRequest req w) as [t|]; [|exact Hw].
    assert (Hs : Forall (fun q => fst q < nextRequest (settle req w))
                        (inFlight (settle req w))).
    { simpl. apply Forall_forall. intros q Hq. apply filter_In in Hq.
      exact (proj1 (Forall_forall _ _) Hw q (proj1 Hq)). }
    unfold makeContinuousPrediction_resume.
    by_outcome out; try exact Hs; apply Hcatch; exact Hs.
Qed.

Lemma fresh_run (events : list event) : fresh (run events initialWorld).
Proof. apply run_preserves; [exact fresh_step | constructor]. Qed.

(** The answer to the request sent last, when it is accepted. *)
Lemma settle_newest
    (w : World) (l : list (nat * tick)) (r : nat) (t : tick)
    (d : Response.t) (text now : string) :
  inFlight w = (l ++ [(r, t)])%list ->
  Forall (fun q => fst q < r) l ->
  JS.truthy (Response.prediction d) = true ->
  reasonTextOf d = Some text ->
  timeSeriesData (view (step w (Settle r (Resolved (Some d)) now)))
  = appendPoint (pointOf t d text now) (timeSeriesData (view w)) /\
  timers (step w (Settle r (Resolved (Some d)) now)) = timers w /\
  inFlight (step w (Settle r (Resolved (Some d)) now)) = l /\
  nextRequest (step w (Settle r (Resolved (Some d)) now)) = nextRequest w.
Proof.
  intros Hin Hl Hp Hr.
  assert (Hstep : step w (Settle r (Resolved (Some d)) now)
            = onView (setRandomResults (continuousSummary (captured t)))
                (onView (setTimeSeriesData (appendPoint (pointOf t d text now)))
                   (onView (setErrorMessage "")
                      (onView (setReason text)
                         (onView (setPrediction (Response.prediction d))
                            (settle r w)))))).
  { cbn [step]. unfold lookupRequest. rewrite Hin, (find_posted l r t Hl).
    cbn [option_map snd].
    unfold makeContinuousPrediction_resume, usable. rewrite Hp, Hr. reflexivity. }
  rewrite Hstep. cbn [onView settle view timers inFlight nextRequest
                      setRandomResults setTimeSeriesData setErrorMessage setReason
                      setPrediction timeSeriesData].
  repeat split. rewrite Hin. apply filter_posted, Hl.
Qed.

Lemma accepted_inv (a : answeredTick) :
  accepted a = true ->
  JS.truthy (Response.prediction (reply a)) = true /\
  exists text, reasonTextOf (reply a) = Some text.
Proof.
  unfold accepted, succeeds, usable.
  destruct (JS.truthy (Response.prediction (reply a))); [|discriminate].
  destruct (reasonTextOf (reply a)) as [text|]; [|discriminate].
  intros _. split; [reflexivity | exists text; reflexivity].
Qed.

Lemma pointOf_tickPoint (c : list Point.t) (a : answeredTick) (text : string) :
  reasonTextOf (reply a) = Some text ->
  pointOf {| captured := c; randomData := generateRandomData (draws a) |}
          (reply a) text (clock a)
  = tickPoint a.
Proof. intros H. unfold pointOf, tickPoint. rewrite H. reflexivity. Qed.

Lemma laterTicks_run (ticks : list answeredTick) :
  forall (w : World) (id : nat) (c : list Point.t),
    timers w = [(id, c)] -> fresh w ->
    forallb accepted ticks = true ->
    timeSeriesData (view (run (laterTicks id (nextRequest w) ticks) w))
    = fold_left (fun window p => appendPoint p window) (map tickPoint ticks)
                (timeSeriesData (view w)).
Proof.
  induction ticks as [|a ticks IH]; intros w id c Ht Hf Hacc.
  - reflexivity.
  - cbn [forallb] in Hacc. apply andb_prop in Hacc. destruct Hacc as [Ha Hacc].
    destruct (accepted_inv a Ha) as [Hp [text Hr]].
    cbn [laterTicks fold_left map]. rewrite !run_cons.
    set (w1 := step w (TimerFire id (draws a))).
    assert (Hw1 : w1 = makeContinuousPrediction_call c (draws a) w).
    { unfold w1. cbn [step]. rewrite Ht. cbn [find fst].
      rewrite Nat.eqb_refl. reflexivity. }
    destruct (settle_newest w1 (inFlight w) (nextRequest w)
                {| captured := c; randomData := generateRandomData (draws a) |}
                (reply a) text (clock a))
      as (H1 & H2 & H3 & H4); try assumption.
    { rewrite Hw1. reflexivity. }
    set (w2 := step w1 (Settle (nextRequest w) (Resolved (Some (reply a))) (clock a)))
      in *.
    rewrite pointOf_tickPoint in H1 by exact Hr.
    replace (S (nextRequest w)) with (nextRequest w2)
      by (rewrite H4, Hw1; reflexivity).
    rewrite (IH w2 id c).
    + rewrite H1, Hw1. reflexivity.
    + rewrite H2, Hw1. exact Ht.
    + unfold fresh. rewrite H3, H4, Hw1. simpl.
      eapply Forall_impl; [|exact Hf]. simpl. intros q Hq. lia.
    + exact Hacc.
Qed.

(** A session started on an idle page and whose ticks are all answered
    and accepted: the window is what the appends of its points, in order,
    make of the empty window. *)
Lemma session_run (w : World) (first : answeredTick) (rest : list answeredTick) :
  tidy w -> fresh w -> isContinuous (view w) = false ->
  forallb accepted (first :: rest) = true ->
  timeSeriesData
    (view (run (session (nextTimer w) (nextRequest w) first rest) w))
  = fold_left (fun window p => appendPoint p window)
              (map tickPoint (first :: rest)) [].
Proof.
  intros Ht Hf Hidle Hacc.
  cbn [forallb] in Hacc. apply andb_prop in Hacc. destruct Hacc as [Ha Hacc].
  destruct (accepted_inv first Ha) as [Hp [text Hr]].
  assert (Htimers : timers w = []).
  { destruct Ht as (_ & Hi & Hm). rewrite (Hi Hidle) in Hm. exact Hm. }
  unfold session. cbn [fold_left map]. rewrite !run_cons.
  set (c := timeSeriesData (view w)).
  set (w1 := step w (Click (draws first))).
  assert (Hw1 : w1 = startContinuous c (draws first) w).
  { unfold w1. cbn [step]. unfold toggleContinuousPrediction.
    rewrite Hidle. reflexivity. }
  destruct (settle_newest w1 (inFlight w) (nextRequest w)
              {| captured := c; randomData := generateRandomData (draws first) |}
              (reply first) text (clock first))
    as (H1 & H2 & H3 & H4); try assumption.
  { rewrite Hw1. reflexivity. }
  set (w2 := step w1 (Settle (nextRequest w) (Resolved (Some (reply first)))
                        (clock first))) in *.
  rewrite pointOf_tickPoint in H1 by exact Hr.
  replace (S (nextRequest w)) with (nextRequest w2)
    by (rewrite H4, Hw1; reflexivity).
  rewrite (laterTicks_run rest w2 (nextTimer w) c).
  - rewrite H1, Hw1. reflexivity.
  - rewrite H2, Hw1. unfold startContinuous. simpl. rewrite Htimers. reflexivity.
  - unfold fresh. rewrite H3, H4, Hw1. simpl.
    eapply Forall_impl; [|exact Hf]. simpl. intros q Hq. lia.
  - exact Hacc.
Qed.

End Sessions.

(* ------------------------------------------------------------------ *)
(** ** Properties of the history window and of the monitoring loop *)

(** C3: in every state the page reaches the history window holds at most
    20 points. Every accepted answer to a tick puts its point at the end of
    the window and, when that makes more than 20, drops points from the
    front. So in a session started on an idle page whose ticks are
    answered in turn, the window holds the points of the latest 20 ticks in
    the order of the ticks; after the 21st tick the point of the 1st tick
    is gone and the point of the 2nd is the oldest. *)
Theorem history_window_keeps_latest_20 :
  (forall events,
      List.length (timeSeriesData (view (run events initialWorld))) <= 20) /\
  (forall events req t d text now,
      lookupRequest req (run events initialWorld) = Some t ->
      JS.truthy (Response.prediction d) = true ->
      reasonTextOf d = Some text ->
      timeSeriesData
        (view (step (run events initialWorld) (Settle req (Resolved (Some d)) now)))
      = skipn (List.length (timeSeriesData (view (run events initialWorld))) + 1 - 20)
              (timeSeriesData (view (run events initialWorld))
               ++ [pointOf t d text now])) /\
  (forall events first rest,
      isContinuous (view (run events initialWorld)) = false ->
      forallb accepted (first :: rest) = true ->
      timeSeriesData
        (view (run (session (nextTimer (run events initialWorld))
                            (nextRequest (run events initialWorld)) first rest)
                   (run events initialWorld)))
      = skipn (List.length (first :: rest) - 20) (map tickPoint (first :: rest))) /\
  (forall events a1 a2 rest,
      isContinuous (view (run events initialWorld)) = false ->
      forallb accepted (a1 :: a2 :: rest) = true ->
      List.length rest = 19 ->
      timeSeriesData
        (view (run (session (nextTimer (run events initialWorld))
                            (nextRequest (run events initialWorld)) a1 (a2 :: rest))
                   (run events initialWorld)))
      = map tickPoint (a2 :: rest)).
Proof.
  assert (Hbound : forall events,
             List.length (timeSeriesData (view (run events initialWorld))) <= 20).
  { intros events.
    apply (run_preserves (fun w => List.length (timeSeriesData (view w)) <= 20)).
    - exact window_step.
    - simpl. lia. }
  assert (Hsession : forall events first rest,
             isContinuous (view (run events initialWorld)) = false ->
             forallb accepted (first :: rest) = true ->
             timeSeriesData
               (view (run (session (nextTimer (run events initialWorld))
                                   (nextRequest (run events initialWorld)) first rest)
                          (run events initialWorld)))
             = skipn (List.length (first :: rest) - 20)
                     (map tickPoint (first :: rest))).
  { intros events first rest Hidle Hacc.
    rewrite (session_run _ first rest (tidy_run events) (fresh_run events) Hidle Hacc).
    rewrite appends_skipn, length_map. reflexivity. }
  split; [exact Hbound|]. split; [|split; [exact Hsession|]].
  - intros events req t d text now Hreq Hp Hr.
    rewrite <- appendPoint_skipn by apply Hbound.
    cbn [step]. rewrite Hreq.
    unfold makeContinuousPrediction_resume, usable. rewrite Hp, Hr. reflexivity.
  - intros events a1 a2 rest Hidle Hacc Hlen.
    rewrite (Hsession events a1 (a2 :: rest) Hidle Hacc).
    cbn [List.length]. rewrite Hlen. reflexivity.
Qed.

Lemma history_window_keeps_latest_20_witness :
  timeSeriesData
    (view (run (session (nextTimer (run [] initialWorld))
                        (nextRequest (run [] initialWorld))
                        (sampleTick 1) (sampleTick 2 :: map sampleTick (seq 3 19)))
               (run [] initialWorld)))
  = map tickPoint (sampleTick 2 :: map sampleTick (seq 3 19)).
Proof.
  exact (proj2 (proj2 (proj2 history_window_keeps_latest_20))
           [] (sampleTick 1) (sampleTick 2) (map sampleTick (seq 3 19))
           eq_refl eq_refl eq_refl).
Defined.

(** C1, on the code: the first tick of the first session answers
    [Normal]; the window then holds one point while the summary written by
    that tick counts 0 malicious and 0 normal points, because it is computed
    from the [timeSeriesData] captured when the button was pressed. *)
Theorem first_tick_summary_is_stale (rand : nat -> JS.double) (now : string) :
  let w := run [Click rand; Settle 0 (answer "Normal") now] initialWorld in
  List.length (timeSeriesData (view w)) = 1 /\
  chartCounts (randomResults (view w)) = Some (0, 0).
Proof. split; reflexivity. Qed.

(** Every summary written by a tick is the one of the window captured by
    the tick's closure, not of the window the tick has just extended. *)
Lemma tick_summary_from_captured_window
    (w : World) (req : nat) (t : tick) (d : Response.t) (reasonText now : string) :
  lookupRequest req w = Some t ->
  JS.truthy (Response.prediction d) = true ->
  reasonTextOf d = Some reasonText ->
  randomResults (view (step w (Settle req (Resolved (Some d)) now)))
  = continuousSummary (captured t).
Proof.
  intros Hreq Hp Hr. simpl. rewrite Hreq.
  unfold makeContinuousPrediction_resume, usable. rewrite Hp, Hr. reflexivity.
Qed.

(** The summary of the monitoring loop has no bucket for a label other
    than the two it names: such a point is counted nowhere. *)
Lemma continuousSummary_skips_other_labels (p : Point.t) :
  Point.prediction p = JS.VStr "Benign" ->
  chartCounts (continuousSummary [p]) = Some (0, 0).
Proof.
  intros H. unfold continuousSummary, labelled. simpl. rewrite H. reflexivity.
Qed.

(** C4, as stated, fails: a tick answered without a label leaves the
    monitoring on, reports nothing, and the next timer event sends the next
    request. *)
Lemma tick_without_label_keeps_running :
  let w := run [Click zeroDraws] initialWorld in
  let w' := step w (Settle 0 answerWithoutLabel "10:00:05") in
  isContinuous (view w) = true /\
  List.length (inFlight w) = 1 /\
  isContinuous (view w') = true /\
  errorMessage (view w') = "" /\
  map fst (timers w') = [1] /\
  List.length (inFlight w') = 0 /\
  List.length (inFlight (step w' (TimerFire 1 zeroDraws))) = 1.
Proof. repeat split. Qed.

(** C4, amended: when a tick of the monitoring loop fails by throwing (the
    request is rejected, which is the connection error, or handling the
    answer throws), the monitoring is switched off, the interval is
    cancelled so that no timer event starts a tick any more, the connection
    failure message is shown, and the history window is left as it was. *)
Theorem failed_tick_stops_monitoring
    (events : list event) (req : nat) (t : tick) (out : outcome) (now : string) :
  lookupRequest req (run events initialWorld) = Some t ->
  throws out = true ->
  let w := run events initialWorld in
  let w' := step w (Settle req out now) in
  isContinuous (view w') = false /\
  intervalRef w' = None /\
  timers w' = [] /\
  (forall id rand, step w' (TimerFire id rand) = w') /\
  errorMessage (view w') = connectionFailure /\
  timeSeriesData (view w') = timeSeriesData (view w).
Proof.
  intros Hreq Hthrows w w'.
  assert (Ht : tidy (settle req w)) by exact (tidy_run events).
  assert (Hcatch : forall w0, tidy w0 -> view w0 = view (settle req w) \/
                     timeSeriesData (view w0) = timeSeriesData (view w) ->
             w' = continuousCatch w0 ->
             isContinuous (view w') = false /\ intervalRef w' = None /\
             timers w' = [] /\
             (forall id rand, step w' (TimerFire id rand) = w') /\
             errorMessage (view w') = connectionFailure /\
             timeSeriesData (view w') = timeSeriesData (view w)).
  { intros w0 H0 Hview ->.
    destruct (continuousCatch_tidy w0 H0) as (H1 & H2 & H3 & H4 & H5 & _).
    repeat split; auto.
    - intros id rand. apply no_timer_no_tick, H2.
    - rewrite H4. destruct Hview as [-> | ->]; reflexivity. }
  assert (Hw' : w' = makeContinuousPrediction_resume t out now (settle req w)).
  { unfold w'. cbn [step]. unfold w. rewrite Hreq. reflexivity. }
  unfold makeContinuousPrediction_resume in Hw'. unfold throws in Hthrows.
  destruct out as [|data].
  - apply (Hcatch _ Ht); [left; reflexivity | exact Hw'].
  - destruct (usable data) as [d|]; [|discriminate].
    destruct (reasonTextOf d); [discriminate|].
    apply (Hcatch _ (Ht : tidy (onView (setPrediction (Response.prediction d))
                                   (settle req w))));
      [right; reflexivity | exact Hw'].
Qed.

Lemma failed_tick_stops_monitoring_witness :
  let w := run [Click zeroDraws] initialWorld in
  let w' := step w (Settle 0 Rejected "10:00:05") in
  isContinuous (view w') = false /\
  intervalRef w' = None /\
  timers w' = [] /\
  (forall id rand, step w' (TimerFire id rand) = w') /\
  errorMessage (view w') = connectionFailure /\
  timeSeriesData (view w') = timeSeriesData (view w).
Proof.
  exact (failed_tick_stops_monitoring [Click zeroDraws] 0
           {| captured := []; randomData := generateRandomData zeroDraws |}
           Rejected "10:00:05" eq_refl eq_refl).
Defined.

(** C5, as stated, fails: the monitoring is started and stopped while the
    first request is in flight; when that request is answered, its point is
    appended although the monitoring is off. *)
Lemma settle_after_stop_appends :
  let w := run [Click zeroDraws; Click zeroDraws] initialWorld in
  let w' := step w (Settle 0 (answer "Normal") "10:00:01") in
  isContinuous (view w) = false /\
  timeSeriesData (view w) = [] /\
  isContinuous (view w') = false /\
  List.length (timeSeriesData (view w')) = 1.
Proof. repeat split. Qed.

(** C5, amended: stopping while a tick's request is in flight cancels the
    interval, so that no timer event starts a tick any more, leaves the
    history window as it is and leaves the request in flight; when that
    request is answered with a usable label, its point is appended to the
    history window although the monitoring is off. *)
Theorem stop_cancels_timer_not_inflight_tick
    (events : list event) (rand : nat -> JS.double) (req : nat) (t : tick)
    (d : Response.t) (reasonText now : string) :
  isContinuous (view (run events initialWorld)) = true ->
  lookupRequest req (run events initialWorld) = Some t ->
  JS.truthy (Response.prediction d) = true ->
  reasonTextOf d = Some reasonText ->
  let w := run events initialWorld in
  let stopped := step w (Click rand) in
  let settled := step stopped (Settle req (Resolved (Some d)) now) in
  isContinuous (view stopped) = false /\
  timers stopped = [] /\
  (forall id rand', step stopped (TimerFire id rand') = stopped) /\
  timeSeriesData (view stopped) = timeSeriesData (view w) /\
  lookupRequest req stopped = Some t /\
  isContinuous (view settled) = false /\
  timeSeriesData (view settled)
  = appendPoint (pointOf t d reasonText now) (timeSeriesData (view w)).
Proof.
  intros Hrun Hreq Hp Hr w stopped settled.
  assert (Hstop : stopped = stopContinuous w).
  { unfold stopped. cbn [step]. unfold toggleContinuousPrediction, w.
    rewrite Hrun. reflexivity. }
  destruct (stopContinuous_tidy w (tidy_run events))
    as (H1 & H2 & H3 & H4 & _ & _ & H7).
  rewrite <- Hstop in H1, H2, H3, H4, H7.
  assert (Hreq' : lookupRequest req stopped = Some t).
  { unfold lookupRequest. rewrite H7. exact Hreq. }
  assert (Hsettled : view settled
            = setRandomResults (continuousSummary (captured t))
                (setTimeSeriesData (appendPoint (pointOf t d reasonText now))
                   (setErrorMessage ""
                      (setReason reasonText
                         (setPrediction (Response.prediction d) (view stopped)))))).
  { unfold settled. cbn [step]. rewrite Hreq'.
    unfold makeContinuousPrediction_resume, usable. rewrite Hp, Hr. reflexivity. }
  repeat split; auto.
  - intros id rand'. apply no_timer_no_tick, H2.
  - rewrite Hsettled. simpl. exact H3.
  - rewrite Hsettled. simpl. rewrite H4. reflexivity.
Qed.

Lemma stop_cancels_timer_not_inflight_tick_witness :
  let t := {| captured := []; randomData := generateRandomData zeroDraws |} in
  let d := {| Response.prediction := JS.VStr "Malicious";
              Response.confidence := JS.VUndefined;
              Response.reason := JS.VStr "Dst Port is unusual" |} in
  let w := run [Click zeroDraws] initialWorld in
  let stopped := step w (Click zeroDraws) in
  let settled := step stopped (Settle 0 (Resolved (Some d)) "10:00:01") in
  isContinuous (view stopped) = false /\
  timers stopped = [] /\
  (forall id rand', step stopped (TimerFire id rand') = stopped) /\
  timeSeriesData (view stopped) = timeSeriesData (view w) /\
  lookupRequest 0 stopped = Some t /\
  isContinuous (view settled) = false /\
  timeSeriesData (view settled)
  = appendPoint (pointOf t d "Destination Port is unusual" "10:00:01")
      (timeSeriesData (view w)).
Proof.
  exact (stop_cancels_timer_not_inflight_tick [Click zeroDraws] zeroDraws 0
           {| captured := []; randomData := generateRandomData zeroDraws |}
           {| Response.prediction := JS.VStr "Malicious";
              Response.confidence := JS.VUndefined;
              Response.reason := JS.VStr "Dst Port is unusual" |}
           "Destination Port is unusual" "10:00:01"
           eq_refl eq_refl eq_refl eq_refl).
Defined.

Section StartAndStop.




End StartAndStop.



(** A press on the button of a running monitor is the stop branch, and a
    second press starts a new session with an empty window. *)
Lemma press_on_running_stops_then_restarts :
  let running := run [Click zeroDraws; Settle 0 (answer "Normal") "10:00:00"]
                     initialWorld in
  let once := step running (Click zeroDraws) in
  let twice := step once (Click zeroDraws) in
  isContinuous (view running) = true /\
  isContinuous (view once) = false /\
  List.length (timeSeriesData (view once)) = 1 /\
  isContinuous (view twice) = true /\
  timeSeriesData (view twice) = [].
Proof. cbv zeta. repeat split; vm_compute; reflexivity. Qed.

(* ------------------------------------------------------------------ *)
(** ** Manual submission *)

(** C9: when a manual submission fails, the failure is shown (as the
    prediction text, together with the connection failure message when the
    handler's [try] block threw) and the history window is exactly what it
    was. *)
Theorem failed_submit_is_shown_and_keeps_history (s : State) (out : outcome) :
  submitFails out = true ->
  timeSeriesData (handleSubmit out s) = timeSeriesData s /\
  prediction (handleSubmit out s)
  = JS.VStr (if throws out then "Error making prediction."
             else "Unexpected response format") /\
  reason (handleSubmit out s) = "" /\
  errorMessage (handleSubmit out s)
  = (if throws out then connectionFailure else errorMessage s) /\
  isLoading (handleSubmit out s) = false.
Proof.
  unfold submitFails, handleSubmit, handleSubmit_resume, handleSubmit_call, throws.
  by_outcome out; try discriminate; intros _; repeat split.
Qed.

Lemma failed_submit_is_shown_and_keeps_history_witness :
  timeSeriesData (handleSubmit Rejected initialState) = timeSeriesData initialState /\
  prediction (handleSubmit Rejected initialState)
  = JS.VStr (if throws Rejected then "Error making prediction."
             else "Unexpected response format") /\
  reason (handleSubmit Rejected initialState) = "" /\
  errorMessage (handleSubmit Rejected initialState)
  = (if throws Rejected then connectionFailure else errorMessage initialState) /\
  isLoading (handleSubmit Rejected initialState) = false.
Proof.
  exact (failed_submit_is_shown_and_keeps_history initialState Rejected eq_refl).
Defined.

(** The handler never writes the history window, whatever the answer. *)
Lemma handleSubmit_keeps_history (s : State) (out : outcome) :
  timeSeriesData (handleSubmit out s) = timeSeriesData s.
Proof.
  unfold handleSubmit, handleSubmit_resume, handleSubmit_call.
  by_outcome out; reflexivity.
Qed.

(* ------------------------------------------------------------------ *)
(** ** Batch run *)

Section Batch.

Variable rand : nat -> nat -> JS.double.
Variable answers : nat -> outcome.

Lemma batchItem_cases (i : nat) (b : batch) :
  batchItem (rand i) (answers i) i b
  = match rowOf (rand i) (answers i) i with
    | Some r =>
        {| results := (results b ++ [r])%list;
           maliciousCount := maliciousCount b + (if isMalicious r then 1 else 0);
           normalCount := normalCount b + (if isMalicious r then 0 else 1);
           shown := shown b |}
    | None =>
        if throws (answers i)
        then {| results := results b; maliciousCount := maliciousCount b;
                normalCount := normalCount b;
                shown := setErrorMessage connectionFailure (shown b) |}
        else b
    end.
Proof.
  unfold batchItem, rowOf, throws.
  destruct (answers i) as [|data]; [reflexivity|].
  destruct (usable data) as [d|]; [|reflexivity].
  destruct (reasonTextOf d) as [reasonText|]; [|reflexivity].
  unfold isMalicious. simpl.
  destruct (JS.strictEq (Response.prediction d) "Malicious");
    f_equal; lia.
Qed.

Lemma rowsFrom_S (start len : nat) :
  rowsFrom rand answers start (S len)
  = ((match rowOf (rand start) (answers start) start with
      | Some r => [r]
      | None => []
      end) ++ rowsFrom rand answers (S start) len)%list.
Proof. reflexivity. Qed.

Lemma batchLoop_spec (remaining : nat) :
  forall i b,
    let b' := batchLoop rand answers remaining i b in
    let rows := rowsFrom rand answers i remaining in
    results b' = (results b ++ rows)%list /\
    maliciousCount b' = maliciousCount b + List.length (filter isMalicious rows) /\
    normalCount b' = normalCount b + List.length (filter notMalicious rows) /\
    shown b' = (if existsb (fun j => throws (answers j)) (seq i remaining)
                then setErrorMessage connectionFailure (shown b)
                else shown b).
Proof.
  induction remaining as [|k IH]; intros i b.
  - simpl. rewrite app_nil_r. repeat split; lia.
  - cbn zeta. cbn [batchLoop]. rewrite rowsFrom_S.
    specialize (IH (S i) (batchItem (rand i) (answers i) i b)).
    cbn zeta in IH. destruct IH as (Hr & Hm & Hn & Hs).
    rewrite Hr, Hm, Hn, Hs. clear Hr Hm Hn Hs.
    rewrite batchItem_cases. cbn [seq existsb].
    destruct (rowOf (rand i) (answers i) i) as [r|] eqn:Hrow.
    + assert (Hthrows : throws (answers i) = false).
      { unfold rowOf in Hrow. unfold throws.
        destruct (answers i) as [|data]; [discriminate|].
        destruct (usable data) as [d|]; [|reflexivity].
        destruct (reasonTextOf d); [reflexivity | discriminate]. }
      rewrite Hthrows. cbn [orb results maliciousCount normalCount shown].
      rewrite <- app_assoc. cbn [app filter]. unfold notMalicious at 2.
      destruct (isMalicious r); cbn [negb List.length]; repeat split; lia.
    + destruct (throws (answers i));
        cbn [orb results maliciousCount normalCount shown app].
      * repeat split.
        destruct (existsb _ (seq (S i) k)); reflexivity.
      * repeat split.
  Qed.

Lemma filter_partition_length (rows : list Result.row) :
  List.length (filter isMalicious rows) + List.length (filter notMalicious rows)
  = List.length rows.
Proof.
  induction rows as [|r rows IH]; [reflexivity|].
  simpl. unfold notMalicious at 1. destruct (isMalicious r); simpl; lia.
Qed.

(** What the batch run leaves in the component state. *)
Lemma batch_result (count : nat) (s : State) :
  let s' := generateMultipleRandomPredictions count rand answers s in
  let rows := rowsFrom rand answers 0 count in
  randomResults s'
  = (map Result.Row rows
     ++ [ Result.Chart [ ("Malicious", List.length (filter isMalicious rows));
                         ("Normal", List.length (filter notMalicious rows)) ] ])%list /\
  errorMessage s'
  = (if existsb (fun j => throws (answers j)) (seq 0 count)
     then connectionFailure else errorMessage s) /\
  timeSeriesData s' = timeSeriesData s.
Proof.
  cbn zeta. unfold generateMultipleRandomPredictions, batchRun.
  pose proof (batchLoop_spec count 0
                {| results := []; maliciousCount := 0; normalCount := 0;
                   shown := setIsLoading true s |}) as H.
  cbn zeta in H. destruct H as (Hr & Hm & Hn & Hs).
  rewrite Hr, Hm, Hn, Hs. cbn [results maliciousCount normalCount shown app].
  destruct (existsb _ (seq 0 count)); repeat split.
Qed.

Lemma rowsFrom_In (start len i : nat) (r : Result.row) :
  start <= i < start + len ->
  rowOf (rand i) (answers i) i = Some r ->
  In r (rowsFrom rand answers start len).
Proof.
  intros Hi Hrow. unfold rowsFrom. apply in_flat_map.
  exists i. split; [apply in_seq; exact Hi|]. rewrite Hrow. left. reflexivity.
Qed.

Lemma rowsFrom_inv (start len : nat) (r : Result.row) :
  In r (rowsFrom rand answers start len) ->
  exists i, start <= i < start + len /\ rowOf (rand i) (answers i) i = Some r.
Proof.
  unfold rowsFrom. intros H. apply in_flat_map in H. destruct H as (i & Hi & Hr).
  exists i. split; [apply in_seq; exact Hi|].
  destruct (rowOf (rand i) (answers i) i) as [r'|]; [|contradiction].
  destruct Hr as [->|[]]. reflexivity.
Qed.

Lemma rowOf_id (i : nat) (out : outcome) (rnd : nat -> JS.double) (r : Result.row) :
  rowOf rnd out i = Some r -> Result.id r = i + 1.
Proof.
  unfold rowOf. by_outcome out; try discriminate.
  intros H. injection H as <-. reflexivity.
Qed.

Lemma rowOf_throws (i : nat) (out : outcome) (rnd : nat -> JS.double) :
  throws out = true -> rowOf rnd out i = None.
Proof.
  unfold rowOf, throws. by_outcome out; try reflexivity; discriminate.
Qed.

Lemma readableReason_text (d : Response.t) :
  readableReason d = true -> exists text, reasonTextOf d = Some text.
Proof.
  unfold readableReason, reasonTextOf, JS.orElse.
  destruct (Response.reason d) as [| |b|q|text|]; simpl; try discriminate;
    try (intros _; eexists; reflexivity).
  - destruct b; [discriminate | intros _; eexists; reflexivity].
  - destruct (Qeq_bool q 0); [intros _; eexists; reflexivity | discriminate].
  - intros _. destruct (String.eqb text ""); eexists; reflexivity.
Qed.

Lemma rowOf_success (i : nat) (rnd : nat -> JS.double) (d : Response.t) :
  JS.truthy (Response.prediction d) = true ->
  readableReason d = true ->
  exists r, rowOf rnd (Resolved (Some d)) i = Some r /\
            Result.id r = i + 1 /\
            Result.prediction r = Response.prediction d.
Proof.
  intros Hp Hr. destruct (readableReason_text d Hr) as [text Ht].
  unfold rowOf, usable. rewrite Hp, Ht.
  eexists. repeat split.
Qed.

End Batch.

(** C6, as stated, fails: in a batch of 5 whose third request is
    rejected, the result set holds the four rows numbered 1, 2, 4, 5 and
    the chart object, and nothing that records index 3; the failure is only
    shown as the page's error message. *)
Lemma batch_failure_not_in_result_set :
  let s' := generateMultipleRandomPredictions 5 (fun _ => zeroDraws)
              thirdRejected initialState in
  map indexOfResult (randomResults s') = [Some 1; Some 2; Some 4; Some 5; None] /\
  chartCounts (randomResults s') = Some (0, 4) /\
  errorMessage s' = connectionFailure.
Proof. repeat split. Qed.

(** C6, amended: a batch item whose request fails does not end the run.
    Every item is run; the result set holds, in index order, the rows of
    the items that succeeded, numbered by their position in the run,
    followed by the chart whose two counts add up to the number of rows; a
    failed item has no row, so it is in neither count, and it is reported
    through the page's connection failure message, not in the result set. *)
Theorem batch_survives_failed_items
    (count : nat) (rand : nat -> nat -> JS.double) (answers : nat -> outcome)
    (s : State) :
  let s' := generateMultipleRandomPredictions count rand answers s in
  let rows := rowsFrom rand answers 0 count in
  let malicious := List.length (filter isMalicious rows) in
  let normal := List.length (filter notMalicious rows) in
  randomResults s'
  = (map Result.Row rows
     ++ [ Result.Chart [ ("Malicious", malicious); ("Normal", normal) ] ])%list /\
  malicious + normal = List.length rows /\
  (forall i r,
      i < count -> rowOf (rand i) (answers i) i = Some r -> In r rows) /\
  (forall r, In r rows ->
      exists i, i < count /\ Result.id r = i + 1 /\
                rowOf (rand i) (answers i) i = Some r) /\
  (forall i,
      i < count -> throws (answers i) = true ->
      errorMessage s' = connectionFailure /\
      forall r, In r rows -> Result.id r <> i + 1).
Proof.
  cbn zeta.
  destruct (batch_result rand answers count s) as (Hres & Herr & _).
  cbn zeta in Hres, Herr.
  split; [exact Hres|].
  split; [apply filter_partition_length|].
  split; [|split].
  - intros i r Hi Hrow. apply (rowsFrom_In rand answers 0 count i); [lia | exact Hrow].
  - intros r Hr. destruct (rowsFrom_inv rand answers 0 count r Hr) as (i & Hi & Hrow).
    exists i. repeat split; [lia | exact (rowOf_id _ _ _ _ Hrow) | exact Hrow].
  - intros i Hi Hthrows. split.
    + rewrite Herr.
      assert (Hex : existsb (fun j => throws (answers j)) (seq 0 count) = true).
      { apply existsb_exists. exists i. split; [apply in_seq; lia | exact Hthrows]. }
      rewrite Hex. reflexivity.
    + intros r Hr Hid.
      destruct (rowsFrom_inv rand answers 0 count r Hr) as (j & Hj & Hrow).
      pose proof (rowOf_id _ _ _ _ Hrow) as Hid'.
      assert (j = i) by lia. subst j.
      rewrite (rowOf_throws i (answers i) (rand i) Hthrows) in Hrow. discriminate.
Qed.

Lemma batch_survives_failed_items_witness :
  errorMessage
    (generateMultipleRandomPredictions 5 (fun _ => zeroDraws) thirdRejected
       initialState)
  = connectionFailure /\
  forall r, In r (rowsFrom (fun _ => zeroDraws) thirdRejected 0 5) ->
            Result.id r <> 3.
Proof.
  exact (proj2 (proj2 (proj2 (proj2
           (batch_survives_failed_items 5 (fun _ => zeroDraws) thirdRejected
              initialState))))
           2 (proj1 (Nat.ltb_lt 2 5) eq_refl) eq_refl).
Defined.

(** C10: in a batch run, the chart's [Normal] count is the number of rows
    whose label is not exactly the string [Malicious], whatever else the
    label is, the [Malicious] count is the number of the other rows, and the
    two counts add up to the number of rows, one row per request answered
    successfully. *)
Theorem batch_counts_any_other_label_as_normal
    (count : nat) (rand : nat -> nat -> JS.double) (answers : nat -> outcome)
    (s : State) :
  let s' := generateMultipleRandomPredictions count rand answers s in
  let rows := rowsFrom rand answers 0 count in
  let malicious :=
    List.length
      (filter (fun r => JS.strictEq (Result.prediction r) "Malicious") rows) in
  let normal :=
    List.length
      (filter (fun r => negb (JS.strictEq (Result.prediction r) "Malicious")) rows) in
  chartCounts (randomResults s') = Some (malicious, normal) /\
  malicious + normal = List.length rows /\
  map indexOfResult (randomResults s')
  = (map (fun r => Some (Result.id r)) rows ++ [None])%list /\
  (forall i d,
      i < count -> answers i = Resolved (Some d) ->
      JS.truthy (Response.prediction d) = true -> readableReason d = true ->
      exists r, In r rows /\ Result.id r = i + 1 /\
                Result.prediction r = Response.prediction d).
Proof.
  cbn zeta.
  destruct (batch_result rand answers count s) as (Hres & _ & _).
  cbn zeta in Hres. rewrite Hres. split; [|split; [|split]].
  - unfold chartCounts. rewrite last_last. reflexivity.
  - apply filter_partition_length.
  - rewrite map_app, map_map. reflexivity.
  - intros i d Hi Ha Hp Hr.
    destruct (rowOf_success i (rand i) d Hp Hr) as (r & Hrow & Hid & Hpred).
    exists r. repeat split; [|exact Hid | exact Hpred].
    apply (rowsFrom_In rand answers 0 count i); [lia|].
    rewrite Ha. exact Hrow.
Qed.

Lemma batch_counts_any_other_label_as_normal_witness :
  exists r,
    In r (rowsFrom (fun _ => zeroDraws) thirdRejected 0 5) /\
    Result.id r = 4 /\ Result.prediction r = JS.VStr "Normal".
Proof.
  exact (proj2 (proj2 (proj2
           (batch_counts_any_other_label_as_normal 5 (fun _ => zeroDraws)
              thirdRejected initialState)))
           3 {| Response.prediction := JS.VStr "Normal";
                Response.confidence := JS.VUndefined;
                Response.reason := JS.VUndefined |}
           (proj1 (Nat.ltb_lt 3 5) eq_refl) eq_refl eq_refl eq_refl).
Defined.

(** A label outside the two-word vocabulary lands in the [Normal] count. *)
Lemma batch_counts_benign_as_normal :
  chartCounts
    (randomResults
       (generateMultipleRandomPredictions 3 (fun _ => zeroDraws)
          (fun i => if Nat.eqb i 0 then answer "Malicious" else answer "Benign")
          initialState))
  = Some (1, 2).
Proof. reflexivity. Qed.

(* ------------------------------------------------------------------ *)
(** * Further properties of the component *)

(** ** Explanation text *)

Lemma replace_absent (s key label : string) :
  JS.includes s key = false -> JS.replace s key label = s.
Proof.
  unfold JS.includes, JS.replace. destruct (JS.indexOf key s); [discriminate|].
  reflexivity.
Qed.

Lemma fold_replace_absent (table : list (string * string)) (s : string) :
  forallb (fun kl => negb (JS.includes s (fst kl))) table = true ->
  fold_left (fun text kl => JS.replace text (fst kl) (snd kl)) table s = s.
Proof.
  induction table as [|[key label] rest IH]; intros H; simpl in *.
  - reflexivity.
  - apply andb_prop in H. destruct H as [Hk Hrest].
    rewrite replace_absent by (now apply negb_true_iff). apply IH, Hrest.
Qed.

(** X1: an explanation in which none of the configured keys occurs comes
    out of the rewriting unchanged. *)
Theorem annotate_without_keys (explanation : string) :
  forallb (fun kl => negb (JS.includes explanation (fst kl))) featureLabels = true ->
  annotate explanation = explanation.
Proof. apply fold_replace_absent. Qed.

Lemma annotate_without_keys_witness :
  annotate "Unusual flag combination" = "Unusual flag combination".
Proof. exact (annotate_without_keys "Unusual flag combination" eq_refl). Defined.

(** When the answer carries no reason (the field is absent, [null],
    empty, ...), the reason shown is the stock sentence, word for word. *)
Theorem reasonTextOf_default (d : Response.t) :
  JS.truthy (Response.reason d) = false ->
  reasonTextOf d = Some "No explanation provided.".
Proof.
  intros H. unfold reasonTextOf, JS.orElse. rewrite H. reflexivity.
Qed.

Lemma reasonTextOf_default_witness :
  reasonTextOf {| Response.prediction := JS.VStr "Normal";
                  Response.confidence := JS.VNum 1;
                  Response.reason := JS.VNull |}
  = Some "No explanation provided.".
Proof.
  exact (reasonTextOf_default
           {| Response.prediction := JS.VStr "Normal";
              Response.confidence := JS.VNum 1;
              Response.reason := JS.VNull |} eq_refl).
Defined.

(* ------------------------------------------------------------------ *)
(** ** The form *)

Section Form.

Context {V : Type}.

Lemma objectSet_keys (key : string) (v : V) (obj : list (string * V)) :
  In key (map fst obj) -> map fst (objectSet key v obj) = map fst obj.
Proof.
  induction obj as [|[k x] rest IH]; simpl; intros H.
  - contradiction.
  - destruct (String.eqb_spec k key) as [E|N]; simpl.
    + reflexivity.
    + f_equal. apply IH. destruct H as [H|H]; [contradiction | exact H].
Qed.

Lemma objectGet_set_same (key : string) (v : V) (obj : list (string * V)) :
  objectGet key (objectSet key v obj) = Some v.
Proof.
  induction obj as [|[k x] rest IH]; simpl.
  - now rewrite String.eqb_refl.
  - destruct (String.eqb_spec k key) as [E|N]; simpl.
    + subst. now rewrite String.eqb_refl.
    + destruct (String.eqb_spec k key); [contradiction | exact IH].
Qed.

Lemma objectGet_set_other (key other : string) (v : V) (obj : list (string * V)) :
  other <> key -> objectGet other (objectSet key v obj) = objectGet other obj.
Proof.
  intros Hne. induction obj as [|[k x] rest IH]; simpl.
  - destruct (String.eqb_spec key other); [congruence | reflexivity].
  - destruct (String.eqb_spec k key) as [E|N]; simpl.
    + subst. destruct (String.eqb_spec key other); [congruence | reflexivity].
    + destruct (String.eqb_spec k other); [reflexivity | exact IH].
Qed.

End Form.

(** X2: typing into a field of the form changes that field to the typed
    text and nothing else: the form keeps its fields in their order and
    every other field keeps its value. *)
Theorem handleChange_updates_one_field
    (formData_r : list (string * JS.value)) (name value : string) (s : State) :
  In name (map fst formData_r) ->
  map fst (formData (handleChange formData_r name value s)) = map fst formData_r /\
  objectGet name (formData (handleChange formData_r name value s))
  = Some (JS.VStr value) /\
  forall other,
    other <> name ->
    objectGet other (formData (handleChange formData_r name value s))
    = objectGet other formData_r.
Proof.
  intros Hin. unfold handleChange. simpl. split; [|split].
  - apply objectSet_keys, Hin.
  - apply objectGet_set_same.
  - intros other Hne. apply objectGet_set_other, Hne.
Qed.

Lemma handleChange_updates_one_field_witness :
  map fst (formData (handleChange initialFormData "Dst Port" "443" initialState))
  = map fst initialFormData /\
  objectGet "Dst Port"
    (formData (handleChange initialFormData "Dst Port" "443" initialState))
  = Some (JS.VStr "443") /\
  forall other,
    other <> "Dst Port" ->
    objectGet other
      (formData (handleChange initialFormData "Dst Port" "443" initialState))
    = objectGet other initialFormData.
Proof.
  exact (handleChange_updates_one_field initialFormData "Dst Port" "443"
           initialState (or_introl eq_refl)).
Defined.

(** X3: when the answer to "Generate Random Values" has no usable
    label, nothing is reported: the prediction, the reason and the error
    message stay what they were before the button was pressed (the manual
    submission shows "Unexpected response format" in that case). *)
Theorem handleGenerateRandom_silent_without_label
    (rand : nat -> JS.double) (data : option Response.t) (s : State) :
  usable data = None ->
  prediction (handleGenerateRandom rand (Resolved data) s) = prediction s /\
  reason (handleGenerateRandom rand (Resolved data) s) = reason s /\
  errorMessage (handleGenerateRandom rand (Resolved data) s) = errorMessage s /\
  isLoading (handleGenerateRandom rand (Resolved data) s) = false.
Proof.
  intros H. unfold handleGenerateRandom, handleGenerateRandom_resume.
  rewrite H. repeat split.
Qed.

Lemma handleGenerateRandom_silent_without_label_witness :
  prediction (handleGenerateRandom zeroDraws (Resolved None) initialState)
  = prediction initialState /\
  reason (handleGenerateRandom zeroDraws (Resolved None) initialState)
  = reason initialState /\
  errorMessage (handleGenerateRandom zeroDraws (Resolved None) initialState)
  = errorMessage initialState /\
  isLoading (handleGenerateRandom zeroDraws (Resolved None) initialState) = false.
Proof.
  exact (handleGenerateRandom_silent_without_label zeroDraws None initialState
           eq_refl).
Defined.

Lemma handleGenerateRandom_formData
    (rand : nat -> JS.double) (out : outcome) (s : State) :
  formData (handleGenerateRandom rand out s) = asFormData (generateRandomData rand).
Proof.
  unfold handleGenerateRandom, handleGenerateRandom_resume.
  by_outcome out; reflexivity.
Qed.

(** X4: "Generate Random Values" fills the form with the sample it sends,
    whatever becomes of the request: each of the twelve fields, in order,
    holds an integer within its configured range; the history window, the
    result set and the monitoring flag are not touched and the loading flag
    is down again. *)
Theorem handleGenerateRandom_fills_form
    (rand : nat -> JS.double) (out : outcome) (s : State) :
  (forall i, JS.binary64 (rand i) /\ JS.unitInterval (rand i)) ->
  Forall2 (fun (field : string * JS.value) (configured : string * Range.t) =>
             fst field = fst configured /\
             exists v : Z,
               snd field = JS.VNum (inject_Z v) /\
               (Range.min (snd configured) <= v <= Range.max (snd configured))%Z)
          (formData (handleGenerateRandom rand out s)) randomRanges /\
  timeSeriesData (handleGenerateRandom rand out s) = timeSeriesData s /\
  randomResults (handleGenerateRandom rand out s) = randomResults s /\
  isContinuous (handleGenerateRandom rand out s) = isContinuous s /\
  isLoading (handleGenerateRandom rand out s) = false.
Proof.
  intros Hrand. split.
  - rewrite handleGenerateRandom_formData.
    unfold asFormData, generateRandomData, randomRanges.
    cbn [map combine seq List.length].
    repeat (constructor;
            [ split; [reflexivity|];
              cbn [fst snd Range.min Range.max];
              eexists; split; [reflexivity|];
              apply generateRandomValue_bounds;
              [apply Hrand | apply Hrand | lia] | ]).
    constructor.
  - unfold handleGenerateRandom, handleGenerateRandom_resume.
    by_outcome out; repeat split.
Qed.

Lemma handleGenerateRandom_fills_form_witness :
  Forall2 (fun (field : string * JS.value) (configured : string * Range.t) =>
             fst field = fst configured /\
             exists v : Z,
               snd field = JS.VNum (inject_Z v) /\
               (Range.min (snd configured) <= v <= Range.max (snd configured))%Z)
          (formData (handleGenerateRandom zeroDraws Rejected initialState))
          randomRanges /\
  timeSeriesData (handleGenerateRandom zeroDraws Rejected initialState)
  = timeSeriesData initialState /\
  randomResults (handleGenerateRandom zeroDraws Rejected initialState)
  = randomResults initialState /\
  isContinuous (handleGenerateRandom zeroDraws Rejected initialState)
  = isContinuous initialState /\
  isLoading (handleGenerateRandom zeroDraws Rejected initialState) = false.
Proof.
  apply (handleGenerateRandom_fills_form zeroDraws Rejected initialState).
  intros i. split.
  - unfold JS.binary64, zeroDraws. simpl. lia.
  - left. reflexivity.
Defined.

(* ------------------------------------------------------------------ *)
(** ** What the page shows *)

(** X5: after a manual submission that failed, the panel under the
    prediction is the one for normal traffic: the failure text is a
    prediction that is not [Malicious]. *)
Theorem failed_submit_described_as_normal (s : State) (out : outcome) :
  submitFails out = true ->
  renderPredictionDescription (prediction (handleSubmit out s)) = Some NormalTraffic.
Proof.
  unfold submitFails, handleSubmit, handleSubmit_resume, handleSubmit_call, throws.
  by_outcome out; try discriminate; intros _; reflexivity.
Qed.

Lemma failed_submit_described_as_normal_witness :
  renderPredictionDescription (prediction (handleSubmit Rejected initialState))
  = Some NormalTraffic.
Proof. exact (failed_submit_described_as_normal initialState Rejected eq_refl). Defined.

Lemma renderDataValues_labels {V : Type}
    (table : list (string * string)) (data : list (string * V)) :
  map fst data = map fst table ->
  Forall (fun kl => featureLabelOf (fst kl) = JS.VStr (snd kl) /\
                    JS.truthy (JS.VStr (snd kl)) = true) table ->
  map (fun kv : string * V =>
         JS.orElse (featureLabelOf (fst kv)) (JS.VStr (fst kv))) data
  = map (fun kl => JS.VStr (snd kl)) table.
Proof.
  revert data. induction table as [|[key label] rest IH]; intros [|[k v] data] Hk Ht;
    cbn [map fst] in *; try discriminate; [reflexivity|].
  injection Hk as -> Hk. inversion Ht as [|? ? [Hl Htr] Hrest]; subst.
  cbn [fst snd] in Hl, Htr. unfold JS.orElse at 1. rewrite Hl, Htr.
  f_equal. apply IH; assumption.
Qed.

(** X6: for any record that has the twelve fields of the form, in the
    form's order, [renderDataValues] shows the twelve display labels, in
    that order, each beside the record's value; no internal key is shown. *)
Theorem renderDataValues_shows_labels {V : Type} (data : list (string * V)) :
  map fst data = map fst featureLabels ->
  exists items,
    renderDataValues (Some data) = Some items /\
    map fst items = map (fun kl => JS.VStr (snd kl)) featureLabels /\
    map snd items = map snd data.
Proof.
  intros Hk. eexists. split; [reflexivity|]. split.
  - rewrite map_map. cbn [fst]. apply renderDataValues_labels; [exact Hk|].
    unfold featureLabels. repeat (constructor; [split; reflexivity|]). constructor.
  - rewrite map_map. reflexivity.
Qed.

Lemma renderDataValues_shows_labels_witness :
  exists items,
    renderDataValues (Some (generateRandomData zeroDraws)) = Some items /\
    map fst items = map (fun kl => JS.VStr (snd kl)) featureLabels /\
    map snd items = map snd (generateRandomData zeroDraws).
Proof.
  exact (renderDataValues_shows_labels (generateRandomData zeroDraws) eq_refl).
Defined.

(** *** The table and the charts of the monitoring tab *)

Section Rendering.

Context {A B : Type}.

Lemma sequence_In_None (xs : list (option A)) :
  In None xs -> sequence xs = None.
Proof.
  induction xs as [|[x|] xs IH]; simpl; intros H.
  - contradiction.
  - destruct H as [H|H]; [discriminate|]. now rewrite IH.
  - reflexivity.
Qed.

Lemma mapIndexed_In (f : A -> nat -> B) (x : A) (l : list A) :
  forall i, In x l -> exists k, In (f x k) (mapIndexed f i l).
Proof.
  induction l as [|y l IH]; intros i H; simpl in *.
  - contradiction.
  - destruct H as [->|H].
    + exists i. left. reflexivity.
    + destruct (IH (S i) H) as [k Hk]. exists k. right. exact Hk.
Qed.

Lemma In_skipn (k : nat) (x : A) (l : list A) : In x (skipn k l) -> In x l.
Proof.
  revert l. induction k as [|k IH]; intros [|y l] H; simpl in *; auto.
Qed.

End Rendering.

Lemma countdown_rev (n : nat) :
  map (fun k => n - k) (seq 0 n) = rev (seq 1 n).
Proof.
  induction n as [|n IH].
  - reflexivity.
  - rewrite (seq_S n 1), rev_app_distr. cbn [rev app seq map].
    f_equal. rewrite <- IH, <- seq_shift, map_map. reflexivity.
Qed.

Lemma timelineRows_from (n : nat) (l : list Point.t) :
  forall i rows,
    sequence (mapIndexed (timelineRow n) i l) = Some rows ->
    map Timeline.number rows = map (fun k => n - k) (seq i (List.length l)) /\
    map Timeline.time rows = map Point.time l /\
    map (fun r => JS.VStr (Timeline.status r)) rows = map Point.prediction l.
Proof.
  induction l as [|p l IH]; intros i rows H; simpl in H.
  - injection H as <-. repeat split.
  - unfold timelineRow at 1 in H.
    destruct (Point.prediction p) as [| | | |label|] eqn:Hp; try discriminate.
    destruct (sequence (mapIndexed (timelineRow n) (S i) l)) as [rest|] eqn:Hrest;
      [|discriminate].
    injection H as <-. destruct (IH _ _ Hrest) as (H1 & H2 & H3).
    simpl. rewrite H1, H2, H3, Hp. repeat split.
Qed.

(** X7: when the table "Recent Alert History" is drawn, its lines are the
    points of the window, newest first, and the number in front of a line
    is the point's place in the window counted from the oldest one, which
    is 1: the numbers run from the window's length down to 1. *)
Theorem timelineRows_newest_first
    (timeSeriesData_r : list Point.t) (rows : list Timeline.row) :
  timelineRows timeSeriesData_r = Some rows ->
  map Timeline.number rows = rev (seq 1 (List.length timeSeriesData_r)) /\
  map Timeline.time rows = rev (map Point.time timeSeriesData_r) /\
  map (fun r => JS.VStr (Timeline.status r)) rows
  = rev (map Point.prediction timeSeriesData_r).
Proof.
  intros H. unfold timelineRows in H.
  destruct (timelineRows_from _ _ _ _ H) as (H1 & H2 & H3).
  rewrite length_rev in H1. rewrite H1, H2, H3, countdown_rev, !map_rev.
  repeat split.
Qed.

Lemma timelineRows_newest_first_witness :
  map Timeline.number
      (match timelineRows (map samplePoint (seq 1 3)) with
       | Some rows => rows
       | None => []
       end)
  = rev (seq 1 (List.length (map samplePoint (seq 1 3)))).
Proof.
  exact (proj1 (timelineRows_newest_first (map samplePoint (seq 1 3))
                  (match timelineRows (map samplePoint (seq 1 3)) with
                   | Some rows => rows
                   | None => []
                   end) eq_refl)).
Defined.

Lemma appendPoint_In_new (p : Point.t) (prevData : list Point.t) :
  In p (appendPoint p prevData).
Proof.
  unfold appendPoint, slice.
  destruct (Nat.ltb_spec 20 (List.length (prevData ++ [p]))) as [H|H].
  - rewrite skipn_app. apply in_or_app. right.
    rewrite length_app in *. simpl in *.
    replace (List.length prevData + 1 - 20 - List.length prevData) with 0 by lia.
    left. reflexivity.
  - apply in_or_app. right. left. reflexivity.
Qed.

Lemma timelineRows_non_string (timeSeriesData_r : list Point.t) (p : Point.t) :
  In p timeSeriesData_r -> isString (Point.prediction p) = false ->
  timelineRows timeSeriesData_r = None.
Proof.
  intros Hin Hs. unfold timelineRows. apply sequence_In_None.
  destruct (mapIndexed_In (timelineRow (List.length timeSeriesData_r)) p
              (rev timeSeriesData_r) 0) as [k Hk].
  - apply in_rev. rewrite rev_involutive. exact Hin.
  - unfold timelineRow in Hk at 1.
    destruct (Point.prediction p); try exact Hk. discriminate.
Qed.

(** X8: a tick whose answer carries a label that is truthy but is not a
    string (a number, [true], an object) is accepted and its point is
    appended; from then on drawing the table "Recent Alert History" throws,
    because [toLowerCase] is called on that label. *)
Theorem non_string_label_breaks_timeline
    (w : World) (req : nat) (t : tick) (d : Response.t) (text now : string) :
  lookupRequest req w = Some t ->
  JS.truthy (Response.prediction d) = true ->
  isString (Response.prediction d) = false ->
  reasonTextOf d = Some text ->
  In (pointOf t d text now)
     (timeSeriesData (view (step w (Settle req (Resolved (Some d)) now)))) /\
  timelineRows (timeSeriesData (view (step w (Settle req (Resolved (Some d)) now))))
  = None.
Proof.
  intros Hreq Hp Hs Hr.
  assert (Hin : In (pointOf t d text now)
            (timeSeriesData (view (step w (Settle req (Resolved (Some d)) now))))).
  { cbn [step]. rewrite Hreq.
    unfold makeContinuousPrediction_resume, usable. rewrite Hp, Hr.
    simpl. apply appendPoint_In_new. }
  split; [exact Hin|].
  apply (timelineRows_non_string _ _ Hin). exact Hs.
Qed.

Lemma non_string_label_breaks_timeline_witness :
  let t := {| captured := []; randomData := generateRandomData zeroDraws |} in
  let d := {| Response.prediction := JS.VBool true;
              Response.confidence := JS.VUndefined;
              Response.reason := JS.VUndefined |} in
  let w := run [Click zeroDraws] initialWorld in
  In (pointOf t d "No explanation provided." "10:00:01")
     (timeSeriesData (view (step w (Settle 0 (Resolved (Some d)) "10:00:01")))) /\
  timelineRows
    (timeSeriesData (view (step w (Settle 0 (Resolved (Some d)) "10:00:01"))))
  = None.
Proof.
  exact (non_string_label_breaks_timeline (run [Click zeroDraws] initialWorld) 0
           {| captured := []; randomData := generateRandomData zeroDraws |}
           {| Response.prediction := JS.VBool true;
              Response.confidence := JS.VUndefined;
              Response.reason := JS.VUndefined |}
           "No explanation provided." "10:00:01"
           eq_refl eq_refl eq_refl eq_refl).
Defined.

Lemma labelled_exclusive (p : Point.t) :
  labelled "Malicious" p = true -> labelled "Normal" p = false.
Proof.
  unfold labelled, JS.strictEq. destruct (Point.prediction p); try discriminate.
  intros H. apply String.eqb_eq in H. subst. reflexivity.
Qed.

(** X9: the two counts of the pie and bar charts of the monitoring tab
    never exceed the number of points in the window, and they add up to it
    exactly when every point is labelled [Malicious] or [Normal]; a point
    with any other label is in neither count. *)
Theorem timelineDistribution_total (timeSeriesData_r : list Point.t) :
  exists malicious normal,
    timelineDistribution timeSeriesData_r
    = [ ("Malicious", malicious); ("Normal", normal) ] /\
    malicious + normal <= List.length timeSeriesData_r /\
    (malicious + normal = List.length timeSeriesData_r <->
     forallb (fun p => labelled "Malicious" p || labelled "Normal" p)
             timeSeriesData_r = true).
Proof.
  eexists. eexists. split; [reflexivity|].
  induction timeSeriesData_r as [|p l [IHle IHiff]]; simpl.
  - split; [lia|]. split; reflexivity.
  - pose proof (labelled_exclusive p) as Hex.
    destruct (labelled "Malicious" p); [rewrite (Hex eq_refl)|];
      [|destruct (labelled "Normal" p)]; simpl; (split; [lia|]).
    + rewrite <- IHiff. lia.
    + rewrite <- IHiff. lia.
    + split; [lia | discriminate].
Qed.

Lemma lineChartData_from (l : list Point.t) :
  forall i,
    let chart :=
      mapIndexed (fun item index =>
                    (Point.time item,
                     if JS.strictEq (Point.prediction item) "Malicious" then 1 else 0,
                     index)) i l in
    map snd chart = seq i (List.length l) /\
    list_sum (map (fun x => snd (fst x)) chart)
    = List.length (filter (labelled "Malicious") l).
Proof.
  induction l as [|p l IH]; intros i; cbn zeta.
  - split; reflexivity.
  - destruct (IH (S i)) as [H1 H2]. cbn zeta in H1, H2.
    assert (Hsum : forall a rest, list_sum (a :: rest) = a + list_sum rest)
      by reflexivity.
    cbn [mapIndexed map snd fst filter List.length seq].
    rewrite Hsum, H1, H2.
    change (JS.strictEq (Point.prediction p) "Malicious")
      with (labelled "Malicious" p).
    destruct (labelled "Malicious" p); split; reflexivity.
Qed.

(** X10: the line chart has one point per entry of the window, indexed
    from 0 in window order, and it marks as malicious exactly as many
    points as the pie chart counts under [Malicious]. *)
Theorem lineChartData_agrees_with_distribution (timeSeriesData_r : list Point.t) :
  map snd (lineChartData timeSeriesData_r) = seq 0 (List.length timeSeriesData_r) /\
  objectGet "Malicious" (timelineDistribution timeSeriesData_r)
  = Some (list_sum (map (fun x => snd (fst x)) (lineChartData timeSeriesData_r))).
Proof.
  destruct (lineChartData_from timeSeriesData_r 0) as [H1 H2]. cbn zeta in H1, H2.
  unfold lineChartData. split; [exact H1|]. rewrite H2. reflexivity.
Qed.

(** *** The batch tab *)

Lemma batchTableRows_of_rows (rows : list Result.row) :
  forallb (fun r => isString (Result.prediction r)) rows = true ->
  exists table,
    sequence (map batchTableRow (map Result.Row rows)) = Some table /\
    map BatchTable.id table = map Result.id rows /\
    map (fun l => JS.VStr (BatchTable.status l)) table = map Result.prediction rows /\
    map BatchTable.reason table = map Result.reason rows.
Proof.
  induction rows as [|r rows IH]; simpl; intros H.
  - exists []. repeat split.
  - apply andb_prop in H. destruct H as [Hr Hrows].
    destruct (IH Hrows) as (table & Hs & H1 & H2 & H3).
    rewrite Hs. destruct (Result.prediction r) as [| | | |label|] eqn:Hp;
      try discriminate.
    eexists. split; [reflexivity|]. simpl. rewrite H1, H2, H3. repeat split.
Qed.

(** X11: after a batch run whose labels are strings, the batch tab can
    be drawn from what the run stored: the table has one line per
    successful item, in order, with the item's number, label and reason (the
    chart object is not a line of it), and the charts get the two counts
    the run made. *)
Theorem batch_view_shows_the_run
    (count : nat) (rand : nat -> nat -> JS.double) (answers : nat -> outcome)
    (s : State) :
  forallb (fun r => isString (Result.prediction r))
          (rowsFrom rand answers 0 count) = true ->
  let stored := randomResults (generateMultipleRandomPredictions count rand answers s) in
  let rows := rowsFrom rand answers 0 count in
  exists table,
    batchTableRows stored = Some table /\
    map BatchTable.id table = map Result.id rows /\
    map (fun l => JS.VStr (BatchTable.status l)) table = map Result.prediction rows /\
    map BatchTable.reason table = map Result.reason rows /\
    batchChart stored
    = Some [ ("Malicious", List.length (filter isMalicious rows));
             ("Normal", List.length (filter notMalicious rows)) ].
Proof.
  intros Hstr. cbn zeta.
  destruct (batch_result rand answers count s) as (Hres & _ & _).
  cbn zeta in Hres. rewrite Hres.
  destruct (batchTableRows_of_rows _ Hstr) as (table & Hs & H1 & H2 & H3).
  exists table. unfold batchTableRows, batchChart.
  rewrite removelast_last, rev_unit. repeat split; assumption.
Qed.

Lemma batch_view_shows_the_run_witness :
  exists table,
    batchTableRows
      (randomResults
         (generateMultipleRandomPredictions 5 (fun _ => zeroDraws) thirdRejected
            initialState))
    = Some table /\
    map BatchTable.id table
    = map Result.id (rowsFrom (fun _ => zeroDraws) thirdRejected 0 5) /\
    map (fun l => JS.VStr (BatchTable.status l)) table
    = map Result.prediction (rowsFrom (fun _ => zeroDraws) thirdRejected 0 5) /\
    map BatchTable.reason table
    = map Result.reason (rowsFrom (fun _ => zeroDraws) thirdRejected 0 5) /\
    batchChart
      (randomResults
         (generateMultipleRandomPredictions 5 (fun _ => zeroDraws) thirdRejected
            initialState))
    = Some [ ("Malicious",
              List.length
                (filter isMalicious (rowsFrom (fun _ => zeroDraws) thirdRejected 0 5)));
             ("Normal",
              List.length
                (filter notMalicious (rowsFrom (fun _ => zeroDraws) thirdRejected 0 5))) ].
Proof.
  exact (batch_view_shows_the_run 5 (fun _ => zeroDraws) thirdRejected initialState
           eq_refl).
Defined.

Section BatchRun.

Variable rand : nat -> nat -> JS.double.
Variable answers : nat -> outcome.

Lemma rowOf_succeeds (rnd : nat -> JS.double) (out : outcome) (i : nat) :
  match rowOf rnd out i with
  | Some r => succeeds out = true /\ Result.id r = i + 1
  | None => succeeds out = false
  end.
Proof. unfold rowOf, succeeds. by_outcome out; repeat split. Qed.

Lemma succeeds_not_throws (out : outcome) : succeeds out = true -> throws out = false.
Proof. unfold succeeds, throws. by_outcome out; try discriminate; reflexivity. Qed.

Lemma rowsFrom_ids (len : nat) :
  forall start,
    map Result.id (rowsFrom rand answers start len)
    = map (fun i => i + 1)
          (filter (fun i => succeeds (answers i)) (seq start len)).
Proof.
  induction len as [|len IH]; intros start.
  - reflexivity.
  - rewrite rowsFrom_S, map_app, IH. cbn [seq filter].
    pose proof (rowOf_succeeds (rand start) (answers start) start) as H.
    destruct (rowOf (rand start) (answers start) start) as [r|].
    + destruct H as [Hs Hid]. cbn [map app]. rewrite Hs, Hid. reflexivity.
    + rewrite H. reflexivity.
Qed.

Lemma filter_all {A : Type} (f : A -> bool) (l : list A) :
  (forall x, In x l -> f x = true) -> filter f l = l.
Proof.
  induction l as [|x l IH]; intros H; simpl.
  - reflexivity.
  - rewrite (H x (or_introl eq_refl)). f_equal. apply IH.
    intros y Hy. apply H. right. exact Hy.
Qed.

Lemma existsb_none {A : Type} (f : A -> bool) (l : list A) :
  (forall x, In x l -> f x = false) -> existsb f l = false.
Proof.
  induction l as [|x l IH]; intros H; simpl.
  - reflexivity.
  - rewrite (H x (or_introl eq_refl)). apply IH.
    intros y Hy. apply H. right. exact Hy.
Qed.

(** The component state a batch run leaves, written with the setters. *)
Lemma batch_state (count : nat) (s : State) :
  generateMultipleRandomPredictions count rand answers s
  = setIsLoading false
      (setRandomResults
         (randomResults (generateMultipleRandomPredictions count rand answers s))
         (if existsb (fun j => throws (answers j)) (seq 0 count)
          then setErrorMessage connectionFailure s
          else s)).
Proof.
  unfold generateMultipleRandomPredictions, batchRun.
  pose proof (batchLoop_spec rand answers count 0
                {| results := []; maliciousCount := 0; normalCount := 0;
                   shown := setIsLoading true s |}) as H.
  cbn zeta in H. destruct H as (_ & _ & _ & Hs).
  rewrite Hs. cbn [shown].
  destruct (existsb _ (seq 0 count)); reflexivity.
Qed.

End BatchRun.

(** X12: the numbers shown in the batch result set are exactly the
    positions, counted from 1, of the items whose request succeeded, in the
    order of the run; the chart object comes last and has no number. *)
Theorem batch_numbers_are_positions
    (count : nat) (rand : nat -> nat -> JS.double) (answers : nat -> outcome)
    (s : State) :
  map indexOfResult
      (randomResults (generateMultipleRandomPredictions count rand answers s))
  = (map (fun i => Some (i + 1))
         (filter (fun i => succeeds (answers i)) (seq 0 count))
     ++ [None])%list.
Proof.
  destruct (batch_result rand answers count s) as (Hres & _ & _).
  cbn zeta in Hres. rewrite Hres, map_app, map_map. cbn [map indexOfResult].
  f_equal.
  rewrite <- (map_map Result.id Some), rowsFrom_ids, map_map. reflexivity.
Qed.

(** X13: when every request of a batch of [count] items succeeds, the
    result set is numbered 1 to [count] in order, the two counts of the
    chart add up to [count], and the error message is the one that was
    shown before the run: a clean run does not clear an earlier failure
    message. *)
Theorem clean_batch_is_complete
    (count : nat) (rand : nat -> nat -> JS.double) (answers : nat -> outcome)
    (s : State) :
  (forall i, i < count -> succeeds (answers i) = true) ->
  let s' := generateMultipleRandomPredictions count rand answers s in
  map indexOfResult (randomResults s')
  = (map Some (seq 1 count) ++ [None])%list /\
  (exists malicious normal,
      chartCounts (randomResults s') = Some (malicious, normal) /\
      malicious + normal = count) /\
  errorMessage s' = errorMessage s.
Proof.
  intros Hall. cbn zeta.
  assert (Hfilter : filter (fun i => succeeds (answers i)) (seq 0 count) = seq 0 count).
  { apply filter_all. intros i Hi. apply Hall. apply in_seq in Hi. lia. }
  destruct (batch_result rand answers count s) as (Hres & Herr & _).
  cbn zeta in Hres, Herr. split; [|split].
  - rewrite Hres, map_app, map_map. cbn [map indexOfResult]. f_equal.
    rewrite <- (map_map Result.id Some), rowsFrom_ids, Hfilter.
    rewrite <- seq_shift, !map_map. apply map_ext. intros i. f_equal. lia.
  - rewrite Hres. unfold chartCounts. rewrite last_last.
    eexists. eexists. split; [reflexivity|].
    rewrite filter_partition_length.
    rewrite <- (length_map Result.id), rowsFrom_ids, Hfilter, length_map, length_seq.
    reflexivity.
  - rewrite Herr. rewrite existsb_none; [reflexivity|].
    intros i Hi. apply succeeds_not_throws, Hall. apply in_seq in Hi. lia.
Qed.

Lemma clean_batch_is_complete_witness :
  let s' := generateMultipleRandomPredictions 3 (fun _ => zeroDraws)
              (fun _ => answer "Normal") initialState in
  map indexOfResult (randomResults s')
  = (map Some (seq 1 3) ++ [None])%list /\
  (exists malicious normal,
      chartCounts (randomResults s') = Some (malicious, normal) /\
      malicious + normal = 3) /\
  errorMessage s' = errorMessage initialState.
Proof.
  exact (clean_batch_is_complete 3 (fun _ => zeroDraws) (fun _ => answer "Normal")
           initialState (fun _ _ => eq_refl)).
Defined.

(** X14: a batch run writes the result set, the loading flag, which ends
    down, and the error message, which becomes the connection failure
    message when handling some item throws and is otherwise left alone; the
    form, the prediction, the reason, the monitoring flag and the history
    window are what they were. *)
Theorem batch_writes_only_its_results
    (count : nat) (rand : nat -> nat -> JS.double) (answers : nat -> outcome)
    (s : State) :
  let s' := generateMultipleRandomPredictions count rand answers s in
  formData s' = formData s /\
  prediction s' = prediction s /\
  reason s' = reason s /\
  isContinuous s' = isContinuous s /\
  timeSeriesData s' = timeSeriesData s /\
  isLoading s' = false /\
  errorMessage s'
  = (if existsb (fun j => throws (answers j)) (seq 0 count)
     then connectionFailure else errorMessage s).
Proof.
  cbn zeta. rewrite batch_state.
  destruct (existsb _ (seq 0 count)); repeat split.
Qed.

(* ------------------------------------------------------------------ *)
(** ** Timers and history across the life of the page *)

(** X15: however the page got to its state, removing the component
    leaves no interval behind: after the clean-up no timer event starts a
    tick. *)
Theorem unmount_leaves_no_timer (events : list event) :
  timers (unmount (run events initialWorld)) = [] /\
  forall id rand,
    step (unmount (run events initialWorld)) (TimerFire id rand)
    = unmount (run events initialWorld).
Proof.
  assert (H : timers (unmount (run events initialWorld)) = []).
  { pose proof (tidy_run events) as Ht. unfold unmount.
    rewrite (tidy_refTruthy _ Ht). destruct Ht as (_ & _ & Hm).
    destruct (intervalRef (run events initialWorld)) as [id|].
    - destruct Hm as [_ [c Hc]]. simpl. rewrite Hc. simpl.
      rewrite Nat.eqb_refl. reflexivity.
    - exact Hm. }
  split; [exact H|]. intros id rand. apply no_timer_no_tick, H.
Qed.

(** X16: in every state the page reaches, at most one interval is live,
    it is the one [intervalRef] holds, and none is live while the
    monitoring is off: pressing the button again and again never piles up
    timers. *)
Theorem at_most_one_timer (events : list event) :
  let w := run events initialWorld in
  List.length (timers w) <= 1 /\
  map fst (timers w) = match intervalRef w with Some id => [id] | None => [] end /\
  (isContinuous (view w) = false -> timers w = []).
Proof.
  cbn zeta. destruct (tidy_run events) as (_ & Hidle & Hm).
  destruct (intervalRef (run events initialWorld)) as [id|] eqn:E.
  - destruct Hm as [_ [c Hc]]. rewrite Hc. simpl. repeat split; [lia|].
    intros H. specialize (Hidle H). discriminate.
  - rewrite Hm. simpl. repeat split. lia.
Qed.

Lemma at_most_one_timer_witness :
  timers (run [Click zeroDraws; Click zeroDraws; Click zeroDraws; Click zeroDraws]
              initialWorld) = [].
Proof.
  exact (proj2 (proj2 (at_most_one_timer
                         [Click zeroDraws; Click zeroDraws; Click zeroDraws;
                          Click zeroDraws])) eq_refl).
Defined.

Section StoredPoints.

Lemma append_empty (a b : string) : (a ++ b)%string = "" -> a = "" /\ b = "".
Proof. destruct a; simpl; [intros ->; split; reflexivity | discriminate]. Qed.

Lemma replace_nonempty (s key label : string) :
  s <> "" -> label <> "" -> JS.replace s key label <> "".
Proof.
  intros Hs Hl. unfold JS.replace. destruct (JS.indexOf key s); [|exact Hs].
  intros H. apply append_empty in H. destruct H as [_ H].
  apply append_empty in H. destruct H as [H _]. contradiction.
Qed.

Lemma fold_replace_nonempty (table : list (string * string)) (s : string) :
  Forall (fun kl => snd kl <> "") table -> s <> "" ->
  fold_left (fun text kl => JS.replace text (fst kl) (snd kl)) table s <> "".
Proof.
  revert s. induction table as [|[key label] rest IH]; intros s Ht Hs; simpl.
  - exact Hs.
  - inversion Ht as [|? ? Hl Hrest]; subst.
    apply IH; [exact Hrest|]. apply replace_nonempty; [exact Hs | exact Hl].
Qed.

Lemma annotate_nonempty (s : string) : s <> "" -> annotate s <> "".
Proof.
  apply fold_replace_nonempty. unfold featureLabels.
  repeat (constructor; [discriminate|]). constructor.
Qed.

Lemma reasonTextOf_nonempty (d : Response.t) (text : string) :
  reasonTextOf d = Some text -> text <> "".
Proof.
  unfold reasonTextOf, JS.orElse.
  destruct (JS.truthy (Response.reason d)) eqn:Ht.
  - destruct (Response.reason d) as [| | | |s|]; try discriminate.
    intros H. injection H as <-. apply annotate_nonempty.
    simpl in Ht. intros ->. discriminate.
  - intros H. apply (f_equal (fun o => match o with Some x => x | None => "" end)) in H.
    cbv beta iota in H. subst text. apply annotate_nonempty. discriminate.
Qed.

Lemma appendPoint_In (p x : Point.t) (prevData : list Point.t) :
  In x (appendPoint p prevData) -> x = p \/ In x prevData.
Proof.
  unfold appendPoint, slice. intros H.
  assert (Hin : In x (prevData ++ [p])).
  { destruct (20 <? List.length (prevData ++ [p])); [exact (In_skipn _ _ _ H) | exact H]. }
  apply in_app_or in Hin. destruct Hin as [Hin|[<-|[]]]; auto.
Qed.

End StoredPoints.

(** X17: in every state the page reaches, every point of the history
    window has a truthy label and a reason that is not empty; so the
    fallback text of the table's reason cell is never what fills it, and
    each line shows the point's own reason. *)
Theorem stored_points_have_label_and_reason (events : list event) :
  Forall (fun p => JS.truthy (Point.prediction p) = true /\
                   Point.reason p <> "" /\
                   forall n index row,
                     timelineRow n p index = Some row ->
                     Timeline.reason row = Point.reason p)
         (timeSeriesData (view (run events initialWorld))).
Proof.
  assert (Hgood : Forall (fun p => JS.truthy (Point.prediction p) = true /\
                                   Point.reason p <> "")
                         (timeSeriesData (view (run events initialWorld)))).
  { apply (run_preserves
             (fun w => Forall (fun p => JS.truthy (Point.prediction p) = true /\
                                        Point.reason p <> "")
                              (timeSeriesData (view w)))); [|constructor].
    intros w e Hw. destruct e as [rand|id rand|req out now]; cbn [step].
    - unfold toggleContinuousPrediction. destruct (isContinuous (view w)).
      + unfold stopContinuous. destruct (refTruthy (intervalRef w)); exact Hw.
      + simpl. constructor.
    - destruct (find _ (timers w)) as [[i c]|]; exact Hw.
    - destruct (lookupRequest req w) as [t|]; [|exact Hw].
      unfold makeContinuousPrediction_resume, continuousCatch.
      destruct out as [|data].
      + simpl. destruct (refTruthy (intervalRef w)); exact Hw.
      + unfold usable. destruct data as [d|]; [|exact Hw].
        destruct (JS.truthy (Response.prediction d)) eqn:Hp; [|exact Hw].
        destruct (reasonTextOf d) as [text|] eqn:Hr.
        * simpl. apply Forall_forall. intros x Hx.
          apply appendPoint_In in Hx. destruct Hx as [->|Hx].
          -- simpl. split; [exact Hp | exact (reasonTextOf_nonempty _ _ Hr)].
          -- exact (proj1 (Forall_forall _ _) Hw x Hx).
        * simpl. destruct (refTruthy (intervalRef w)); exact Hw. }
  eapply Forall_impl; [|exact Hgood].
  intros p [Hp Hr]. repeat split; [exact Hp | exact Hr |].
  intros n index row H. unfold timelineRow in H.
  destruct (Point.prediction p); try discriminate.
  injection H as <-. simpl.
  destruct (String.eqb_spec (Point.reason p) ""); [contradiction | reflexivity].
Qed.

Lemma stored_points_have_label_and_reason_witness :
  Timeline.reason
    {| Timeline.number := 1; Timeline.time := "10:00:00"; Timeline.alert := false;
       Timeline.status := "Normal"; Timeline.reason := "No explanation provided." |}
  = "No explanation provided.".
Proof.
  exact (proj2 (proj2 (Forall_inv
           (stored_points_have_label_and_reason
              [Click zeroDraws; Settle 0 (answer "Normal") "10:00:00"])))
           1 0
           {| Timeline.number := 1; Timeline.time := "10:00:00";
              Timeline.alert := false; Timeline.status := "Normal";
              Timeline.reason := "No explanation provided." |}
           eq_refl).
Defined.

(* ------------------------------------------------------------------ *)
(** ** Manual submission, when it succeeds *)

(** X18: a manual submission answered with a usable label and a readable
    reason shows that label and the rewritten reason, clears the error
    message, and the panel under the prediction is the threat panel exactly
    when the label is the string [Malicious]. *)
Theorem successful_submit_is_shown (s : State) (d : Response.t) (text : string) :
  JS.truthy (Response.prediction d) = true ->
  reasonTextOf d = Some text ->
  let s' := handleSubmit (Resolved (Some d)) s in
  prediction s' = Response.prediction d /\
  reason s' = text /\
  errorMessage s' = "" /\
  isLoading s' = false /\
  renderPredictionDescription (prediction s')
  = Some (if JS.strictEq (Response.prediction d) "Malicious"
          then PotentialThreat else NormalTraffic).
Proof.
  intros Hp Hr. cbn zeta.
  unfold handleSubmit, handleSubmit_resume, handleSubmit_call, usable.
  rewrite Hp, Hr. simpl. repeat split.
  unfold renderPredictionDescription. rewrite Hp. simpl.
  destruct (JS.strictEq (Response.prediction d) "Malicious"); reflexivity.
Qed.

Lemma successful_submit_is_shown_witness :
  let d := {| Response.prediction := JS.VStr "Malicious";
              Response.confidence := JS.VUndefined;
              Response.reason := JS.VStr "Dst Port is unusual" |} in
  let s' := handleSubmit (Resolved (Some d)) initialState in
  prediction s' = Response.prediction d /\
  reason s' = "Destination Port is unusual" /\
  errorMessage s' = "" /\
  isLoading s' = false /\
  renderPredictionDescription (prediction s')
  = Some (if JS.strictEq (Response.prediction d) "Malicious"
          then PotentialThreat else NormalTraffic).
Proof.
  exact (successful_submit_is_shown initialState
           {| Response.prediction := JS.VStr "Malicious";
              Response.confidence := JS.VUndefined;
              Response.reason := JS.VStr "Dst Port is unusual" |}
           "Destination Port is unusual" eq_refl eq_refl).
Defined.

(* ------------------------------------------------------------------ *)
(** ** Sample generator: both ends of a range are drawn *)

Section RangeEnds.
Local Open Scope Z_scope.

Lemma roundMagnitude_largest (n : Z) :
  0 < n < 2 ^ 53 ->
  n - 1 <= JS.floor (JS.roundMagnitude ((2 ^ 53 - 1) * n) (-53)).
Proof.
  intros Hn.
  set (p := (2 ^ 53 - 1) * n).
  assert (Hp : 0 < p) by (unfold p; nia).
  assert (Hlow : (n - 1) * 2 ^ 53 <= p) by (unfold p; nia).
  unfold JS.roundMagnitude.
  destruct (Z.leb_spec (JS.bits p - 53) 0) as [Hs|Hs].
  - unfold JS.floor; cbn [JS.mant JS.expo].
    change (0 <=? -53) with false. cbv iota.
    change (- -53) with 53.
    apply Z.div_le_lower_bound; lia.
  - set (s := JS.bits p - 53) in *.
    assert (Hs53 : s <= 53).
    { unfold s, JS.bits, p.
      pose proof (Z.log2_mul_above (2 ^ 53 - 1) n ltac:(lia) ltac:(lia)) as Hmul.
      assert (Z.log2 (2 ^ 53 - 1) < 53) by (apply Z.log2_lt_pow2; lia).
      assert (Z.log2 n < 53) by (apply Z.log2_lt_pow2; lia).
      lia. }
    assert (Hpow : 2 ^ 53 = 2 ^ (53 - s) * 2 ^ s).
    { rewrite <- Z.pow_add_r by lia. f_equal. lia. }
    assert (H2s : 0 < 2 ^ s) by (apply Z.pow_pos_nonneg; lia).
    assert (H2k : 0 < 2 ^ (53 - s)) by (apply Z.pow_pos_nonneg; lia).
    set (q := p / 2 ^ s).
    assert (Hq : (n - 1) * 2 ^ (53 - s) <= q).
    { unfold q. apply Z.div_le_lower_bound; [lia|].
      rewrite Hpow in Hlow. nia. }
    set (q' := if p mod 2 ^ s <? 2 ^ (s - 1) then q
               else if 2 ^ (s - 1) <? p mod 2 ^ s then q + 1
               else if Z.even q then q else q + 1).
    assert (Hq' : q <= q').
    { unfold q'. destruct (p mod 2 ^ s <? 2 ^ (s - 1)); [lia|].
      destruct (2 ^ (s - 1) <? p mod 2 ^ s); [lia|].
      destruct (Z.even q); lia. }
    unfold JS.floor; cbn [JS.mant JS.expo]. fold q q'.
    destruct (Z.leb_spec 0 (-53 + s)) as [Hk|Hk].
    + replace (-53 + s) with 0 by lia.
      replace (53 - s) with 0 in Hq by lia.
      rewrite Z.pow_0_r in *. lia.
    + replace (- (-53 + s)) with (53 - s) by lia.
      apply Z.div_le_lower_bound; [lia|]. nia.
Qed.

End RangeEnds.

(** X19: both ends of a range are drawn: the draw 0 gives [min], and the
    largest draw below 1 gives [max], for every range with [min <= max]
    whose width is below [2 ^ 53]. *)
Theorem generateRandomValue_reaches_both_ends (min max : Z) :
  (min <= max)%Z -> (max - min + 1 < 2 ^ 53)%Z ->
  generateRandomValue (zeroDraws 0) min max = min /\
  generateRandomValue largestDraw min max = max.
Proof.
  intros Hmm Hw. split.
  - unfold generateRandomValue, JS.mulInt, JS.roundNearestEven. simpl. lia.
  - assert (Hb : JS.binary64 largestDraw) by (unfold JS.binary64; simpl; lia).
    assert (Hu : JS.unitInterval largestDraw) by (right; simpl; lia).
    pose proof (generateRandomValue_bounds largestDraw min max Hb Hu Hmm) as Hup.
    assert (Hlo : (max <= generateRandomValue largestDraw min max)%Z); [|lia].
    unfold generateRandomValue, JS.mulInt, JS.roundNearestEven.
    change (JS.mant largestDraw) with (2 ^ 53 - 1)%Z.
    change (JS.expo largestDraw) with (-53)%Z.
    destruct (Z.ltb_spec ((2 ^ 53 - 1) * (max - min + 1)) 0) as [Hneg|_]; [lia|].
    pose proof (roundMagnitude_largest (max - min + 1) ltac:(lia)). lia.
Qed.

Lemma generateRandomValue_reaches_both_ends_witness :
  generateRandomValue (zeroDraws 0) 1 65535 = 1%Z /\
  generateRandomValue largestDraw 1 65535 = 65535%Z.
Proof.
  exact (generateRandomValue_reaches_both_ends 1 65535
           (proj1 (Z.leb_le 1 65535) eq_refl)
           (proj1 (Z.ltb_lt (65535 - 1 + 1) (2 ^ 53)) eq_refl)).
Defined.
